(** * Nutrisense nutrition assistant: a shallow embedding of [app.py]

    The development follows the class [NutrisenseAssistant] of [src/app.py]:
    the keyword classifier, the location extractor, the query composer,
    the search aggregator, the response synthesizer, the preference
    store and the query router.  Every Python method is a Rocq function
    of the same name; a block of a long method that is reasoned about on
    its own has a name of its own.

    Modelling conventions.
    - A Python [str] is a [string]; its characters are the 256 values of
      [ascii].  Case mapping, [isspace], [istitle] and the regular
      expression classes are the ASCII ones: characters from 128 up are
      uncased symbols that are neither spaces nor word characters.
    - A [Dict[str, Any]] holds values of the type [pyval]: [None],
      booleans, integers, strings, lists and dictionaries.  Numbers are
      integers; floating point is outside the model.  An operation on a
      value of the wrong type raises, as it does in Python.
    - Effects are explicit.  A computation is a function from a [world]
      (the two SQLite tables, the remote servers, the list of HTTP
      requests sent so far) to an outcome, which is a returned value or a
      raised exception, and the next world.  Logging is not modelled.
    - The SQLite file is available: statements do not fail for lack of
      it.  A cell keeps the value it was given.
    - The prompt of a chat request is not rendered: the request records
      the arguments the prompt is built from. *)

From Stdlib Require Import String Ascii List ZArith Lia Bool.
From stdpp Require Import base option list gmap strings pretty.

Local Open Scope Z_scope.

(* ===================================================================== *)
(** * Python string primitives *)
(* ===================================================================== *)

Module PyStr.

Definition code (c : ascii) : nat := nat_of_ascii c.

Definition is_upper (c : ascii) : bool :=
  ((65 <=? code c) && (code c <=? 90))%nat.

Definition is_lower (c : ascii) : bool :=
  ((97 <=? code c) && (code c <=? 122))%nat.

Definition is_digit (c : ascii) : bool :=
  ((48 <=? code c) && (code c <=? 57))%nat.

Definition is_cased (c : ascii) : bool := is_upper c || is_lower c.

(** [str.isspace] on one character: tab to carriage return, the four
    separators 28 to 31, and the space. *)
Definition is_space (c : ascii) : bool :=
  ((9 <=? code c) && (code c <=? 13) ||
   (28 <=? code c) && (code c <=? 32))%nat.

(** [\w] of the [re] module. *)
Definition is_word (c : ascii) : bool :=
  is_upper c || is_lower c || is_digit c || (code c =? 95)%nat.

Definition lower_char (c : ascii) : ascii :=
  if is_upper c then ascii_of_nat (code c + 32) else c.

Definition upper_char (c : ascii) : ascii :=
  if is_lower c then ascii_of_nat (code c - 32) else c.

(** [s.lower()] *)
Fixpoint lower (s : string) : string :=
  match s with
  | EmptyString => EmptyString
  | String c r => String (lower_char c) (lower r)
  end.

(** [s.startswith(p)] *)
Fixpoint startswith (p s : string) : bool :=
  match p, s with
  | EmptyString, _ => true
  | String _ _, EmptyString => false
  | String a p', String b s' => if Ascii.eqb a b then startswith p' s' else false
  end.

(** [needle in s] *)
Fixpoint contains (needle s : string) : bool :=
  startswith needle s ||
  match s with
  | EmptyString => false
  | String _ r => contains needle r
  end.

(** [any(k in s for k in keywords)] *)
Definition any_in (keywords : list string) (s : string) : bool :=
  existsb (fun k => contains k s) keywords.

Definition snoc (s : string) (c : ascii) : string := s +:+ String c EmptyString.

(** [s.split(sep)] for a non-empty separator: [skip] counts the characters
    of a separator occurrence that are still to be passed over, [cur] is
    the part being read. *)
Fixpoint split_go (sep s : string) (skip : nat) (cur : string) : list string :=
  match s with
  | EmptyString => [cur]
  | String c r =>
      match skip with
      | S k => split_go sep r k cur
      | O =>
          if startswith sep s
          then cur :: split_go sep r (String.length sep - 1) EmptyString
          else split_go sep r O (snoc cur c)
      end
  end.

Definition split (sep s : string) : list string := split_go sep s O EmptyString.

Fixpoint lstrip_by (f : ascii -> bool) (s : string) : string :=
  match s with
  | EmptyString => EmptyString
  | String c r => if f c then lstrip_by f r else s
  end.

Fixpoint rstrip_by (f : ascii -> bool) (s : string) : string :=
  match s with
  | EmptyString => EmptyString
  | String c r =>
      match rstrip_by f r with
      | EmptyString => if f c then EmptyString else String c EmptyString
      | r' => String c r'
      end
  end.

Definition strip_by (f : ascii -> bool) (s : string) : string :=
  rstrip_by f (lstrip_by f s).

(** [s.strip()] *)
Definition strip (s : string) : string := strip_by is_space s.

Fixpoint mem_char (c : ascii) (chars : string) : bool :=
  match chars with
  | EmptyString => false
  | String d r => Ascii.eqb c d || mem_char c r
  end.

(** [s.strip(chars)] *)
Definition strip_chars (chars s : string) : string :=
  strip_by (fun c => mem_char c chars) s.

(** [s.split()]: the maximal runs of characters that are not spaces. *)
Fixpoint words_go (s cur : string) : list string :=
  match s with
  | EmptyString => match cur with EmptyString => [] | _ => [cur] end
  | String c r =>
      if is_space c
      then match cur with
           | EmptyString => words_go r EmptyString
           | _ => cur :: words_go r EmptyString
           end
      else words_go r (snoc cur c)
  end.

Definition words (s : string) : list string := words_go s EmptyString.

(** [s.istitle()]: [prev] tells whether the previous character is cased,
    [seen] whether a cased character was met. *)
Fixpoint istitle_go (s : string) (prev seen : bool) : bool :=
  match s with
  | EmptyString => seen
  | String c r =>
      if is_upper c then (if prev then false else istitle_go r true true)
      else if is_lower c then (if prev then istitle_go r true true else false)
      else istitle_go r false seen
  end.

Definition istitle (s : string) : bool := istitle_go s false false.

(** [s.title()] *)
Fixpoint title_go (s : string) (prev : bool) : string :=
  match s with
  | EmptyString => EmptyString
  | String c r =>
      String (if prev then lower_char c else upper_char c) (title_go r (is_cased c))
  end.

Definition title (s : string) : string := title_go s false.

(** [sep.join(parts)] *)
Definition join (sep : string) (parts : list string) : string :=
  String.concat sep parts.

(** Python truth value of a string. *)
Definition truthy (s : string) : bool :=
  match s with EmptyString => false | _ => true end.

Fixpoint str_drop (n : nat) (s : string) : string :=
  match n, s with
  | O, _ => s
  | S _, EmptyString => EmptyString
  | S k, String _ r => str_drop k r
  end.

Fixpoint str_take (n : nat) (s : string) : string :=
  match n, s with
  | O, _ => EmptyString
  | S _, EmptyString => EmptyString
  | S k, String c r => String c (str_take k r)
  end.

Fixpoint count_while (f : ascii -> bool) (s : string) : nat :=
  match s with
  | EmptyString => O
  | String c r => if f c then S (count_while f r) else O
  end.

End PyStr.

(* ===================================================================== *)
(** * The regular expression of the third location strategy *)
(* ===================================================================== *)

(** [re.findall(r'\b[A-Z][a-z]+(?:\s+[A-Z][a-z]+)*\b', s)].

    The matcher is greedy with backtracking.  Giving back letters of a
    [[a-z]+] run never helps: the character that follows is then a
    lower-case letter, which is neither [\s] nor a word boundary.  So the
    only choice is the number of repetitions of the group, the largest
    one whose end is a word boundary being taken. *)
Module CapRun.
Import PyStr.

(** [[A-Z][a-z]+] at the head of [s]: the number of characters taken. *)
Definition cap_word (s : string) : option nat :=
  match s with
  | EmptyString => None
  | String c r =>
      if is_upper c
      then match count_while is_lower r with
           | O => None
           | S n => Some (S (S n))
           end
      else None
  end.

(** [\b] after a letter: the end of the text or a character outside [\w]. *)
Definition at_word_end (s : string) : bool :=
  match s with
  | EmptyString => true
  | String c _ => negb (is_word c)
  end.

(** The offsets at which the expression may end once the first word ends
    at offset [e], in increasing order: one per number of repetitions of
    [(?:\s+[A-Z][a-z]+)]. *)
Fixpoint run_ends (fuel : nat) (s : string) (e : nat) : list nat :=
  e ::
  match fuel with
  | O => []
  | S f =>
      let rest := str_drop e s in
      match count_while is_space rest with
      | O => []
      | S w =>
          match cap_word (str_drop (S w) rest) with
          | Some n => run_ends f s (e + S w + n)
          | None => []
          end
      end
  end.

Fixpoint last_good (s : string) (ends : list nat) : option nat :=
  match ends with
  | [] => None
  | e :: r =>
      match last_good s r with
      | Some e' => Some e'
      | None => if at_word_end (str_drop e s) then Some e else None
      end
  end.

(** The length of the match that starts at the head of [s], if any; the
    boundary before the head is checked by the caller. *)
Definition match_at (s : string) : option nat :=
  match cap_word s with
  | None => None
  | Some n => last_good s (run_ends (String.length s) s n)
  end.

(** The scan of [findall]: [prev_word] tells whether the previous
    character is a word character, [skip] counts the characters of the
    last match still to be passed over. *)
Fixpoint findall_go (s : string) (prev_word : bool) (skip : nat) : list string :=
  match s with
  | EmptyString => []
  | String c r =>
      match skip with
      | S k => findall_go r (is_word c) k
      | O =>
          if prev_word then findall_go r (is_word c) O
          else match match_at s with
               | Some n => str_take n s :: findall_go r (is_word c) (n - 1)
               | None => findall_go r (is_word c) O
               end
      end
  end.

Definition findall (s : string) : list string := findall_go s false O.

(** [max(matches, key=len)]: the first match of maximal length. *)
Fixpoint longest (l : list string) : option string :=
  match l with
  | [] => None
  | x :: r =>
      match longest r with
      | Some y => if (String.length x <? String.length y)%nat then Some y else Some x
      | None => Some x
      end
  end.

End CapRun.

(* ===================================================================== *)
(** * Intent classification *)
(* ===================================================================== *)

Import PyStr.

(** Truth value of an [Optional[str]]: [None] and [''] are false. *)
Definition truthy_opt (o : option string) : bool :=
  match o with
  | None => false
  | Some s => truthy s
  end.

Definition forbidden_words : list string := ["spam"; "abuse"; "illegal"].

(** [validate_input]: the argument is a [str], so only emptiness and the
    forbidden words are tested. *)
Definition validate_input (user_input : string) : bool :=
  if negb (truthy user_input) then false
  else negb (any_in forbidden_words (lower user_input)).

Definition food_logging_keywords : list string :=
  ["ate"; "eaten"; "consumed"; "had"; "drank"; "drank";
   "log food"; "log meal"; "log calories"; "track food"; "track meal";
   "add food"; "add meal"; "record food"; "record meal";
   "just ate"; "just had"; "just consumed";
   "breakfast"; "lunch"; "dinner"; "snack"; "meal"].

Definition _is_food_logging_request (query : string) : bool :=
  let query_lower := lower query in
  any_in food_logging_keywords query_lower.

Definition restaurant_keywords : list string :=
  ["restaurant"; "dining"; "eat out"; "dinner"; "lunch"; "breakfast";
   "food place"; "cafe"; "eatery"; "bar"; "bistro"; "dine"; "meal"].

Definition food_keywords : list string :=
  ["serving"; "food"; "cuisine"; "dish"; "fish"; "chicken"; "vegetarian";
   "vegan"; "italian"; "chinese"; "indian"; "pizza"; "burger"; "sushi";
   "seafood"].

Definition location_indicators : list string :=
  ["in "; "at "; "near "; "around "; "for "; "at "].

Definition pattern_places : list string :=
  ["pune"; "mumbai"; "delhi"; "bangalore"; "hyderabad"; "chennai";
   "kolkata"; "gurgaon"; "noida"; "bandra"; "andheri"; "powai"].

Definition common_places : list string :=
  ["pune"; "mumbai"; "delhi"; "bangalore"; "hyderabad"; "chennai";
   "kolkata"; "gurgaon"; "noida";
   "bandra"; "andheri"; "powai"; "koregaon park"; "viman nagar";
   "whitefield"; "indiranagar";
   "connaught place"; "karol bagh"; "cyber city"; "sector 29"; "mg road";
   "brigade road"].

Definition workout_keywords : list string :=
  ["workout"; "exercise"; "fitness"; "training"; "gym"; "strength";
   "cardio"; "muscle"].

Definition has_restaurant_keyword (query_lower : string) : bool :=
  any_in restaurant_keywords query_lower.

Definition has_food_location_pattern (query_lower : string) : bool :=
  any_in food_keywords query_lower && any_in pattern_places query_lower.

(** The loop over [words[:4]] of strategy 1, which stops at the first
    word that does not look like a place name. *)
Fixpoint take_location_words (ws : list string) : list string :=
  match ws with
  | [] => []
  | word :: r =>
      let clean_word := strip_chars ".,!?" word in
      if truthy clean_word && (istitle clean_word || (3 <? String.length clean_word)%nat)
      then clean_word :: take_location_words r
      else []
  end.

(** The body of the loop of strategy 1 for one indicator: the location it
    assigns, or [None] when it assigns nothing. *)
Definition location_after (indicator query_lower : string) : option string :=
  if contains indicator query_lower then
    let parts := split indicator query_lower in
    if (1 <? length parts)%nat then
      let remaining_text := strip (nth 1 parts EmptyString) in
      let location_words := take_location_words (firstn 4 (words remaining_text)) in
      match location_words with
      | [] => None
      | _ => Some (title (join " " location_words))
      end
    else None
  else None.

(** Strategy 1: the first indicator that assigns a location ends the loop. *)
Fixpoint strategy_indicator (indicators : list string) (query_lower : string)
  : option string :=
  match indicators with
  | [] => None
  | indicator :: r =>
      match location_after indicator query_lower with
      | Some location => Some location
      | None => strategy_indicator r query_lower
      end
  end.

(** Strategy 2: the first known place found in the query. *)
Fixpoint strategy_places (places : list string) (query_lower : string)
  : option string :=
  match places with
  | [] => None
  | place :: r =>
      if contains place query_lower then Some (title place)
      else strategy_places r query_lower
  end.

(** Strategy 3: the longest run of capitalised words of the query. *)
Definition strategy_capitalized (query : string) : option string :=
  CapRun.longest (CapRun.findall query).

Definition is_restaurant_query (query : string) : bool :=
  has_restaurant_keyword (lower query) || has_food_location_pattern (lower query).

(** [detect_restaurant_query]: the variable [location] is threaded through
    the three blocks, each later block being guarded by [if not location]. *)
Definition detect_restaurant_query (query : string) : option string :=
  let query_lower := lower query in
  if has_restaurant_keyword query_lower || has_food_location_pattern query_lower then
    let location : option string := None in
    let location :=
      match strategy_indicator location_indicators query_lower with
      | Some l => Some l
      | None => location
      end in
    let location :=
      if negb (truthy_opt location) then
        match strategy_places common_places query_lower with
        | Some l => Some l
        | None => location
        end
      else location in
    let location :=
      if negb (truthy_opt location) then
        match CapRun.findall query with
        | [] => location
        | matches => CapRun.longest matches
        end
      else location in
    location
  else None.

(* ===================================================================== *)
(** * Python values *)
(* ===================================================================== *)

(** The values that flow through a [Dict[str, Any]] of the program: what
    [json.loads] can build and what a SQLite cell can hold.  A [dict] is
    the list of its items in insertion order. *)
Unset Elimination Schemes.
Inductive pyval : Type :=
| PNone
| PBool (b : bool)
| PInt (z : Z)
| PStr (s : string)
| PList (l : list pyval)
| PDict (d : list (string * pyval)).
Set Elimination Schemes.

Abbreviation pydict := (gmap string pyval).

(** Python truth value. *)
Definition py_truthy (v : pyval) : bool :=
  match v with
  | PNone => false
  | PBool b => b
  | PInt z => negb (z =? 0)
  | PStr s => truthy s
  | PList l => match l with [] => false | _ => true end
  | PDict d => match d with [] => false | _ => true end
  end.

(** [d.get(key)] on the top-level dictionaries, absent keys giving [None]. *)
Definition py_get (d : pydict) (key : string) : pyval := default PNone (d !! key).

(** [d.get(key)] and [d[key] = v] on the items of a [dict] value. *)
Fixpoint items_get (d : list (string * pyval)) (key : string) : option pyval :=
  match d with
  | [] => None
  | (k, v) :: r => if String.eqb k key then Some v else items_get r key
  end.

Fixpoint items_set (d : list (string * pyval)) (key : string) (v : pyval)
  : list (string * pyval) :=
  match d with
  | [] => [(key, v)]
  | (k, v') :: r =>
      if String.eqb k key then (k, v) :: r else (k, v') :: items_set r key v
  end.

(** [str(v)] as used in the f-strings.  Containers are rendered without
    the escapes of [repr]. *)
Fixpoint py_str (v : pyval) : string :=
  match v with
  | PNone => "None"
  | PBool true => "True"
  | PBool false => "False"
  | PInt z => pretty z
  | PStr s => s
  | PList l => "[" +:+ join ", " (map py_str l) +:+ "]"
  | PDict d =>
      "{" +:+ join ", " (map (fun kv => "'" +:+ fst kv +:+ "': " +:+ py_str (snd kv)) d) +:+ "}"
  end.

(* ===================================================================== *)
(** * The [json] module on these values *)
(* ===================================================================== *)

Module Json.

Definition dquote : ascii := ascii_of_nat 34.
Definition backslash : ascii := ascii_of_nat 92.

Definition hex_digit (n : nat) : ascii :=
  if (n <? 10)%nat then ascii_of_nat (48 + n) else ascii_of_nat (87 + n).

Definition hex_value (c : ascii) : option nat :=
  let n := code c in
  if is_digit c then Some (n - 48)%nat
  else if ((97 <=? n) && (n <=? 102))%nat then Some (n - 87)%nat
  else if ((65 <=? n) && (n <=? 70))%nat then Some (n - 55)%nat
  else None.

(** One character inside a string literal, as [ensure_ascii] writes it. *)
Definition escape_char (c : ascii) : string :=
  let n := code c in
  if (n =? 34)%nat then String backslash (String dquote EmptyString)
  else if (n =? 92)%nat then String backslash (String backslash EmptyString)
  else if (n =? 10)%nat then "\n"
  else if (n =? 13)%nat then "\r"
  else if (n =? 9)%nat then "\t"
  else if (n =? 8)%nat then "\b"
  else if (n =? 12)%nat then "\f"
  else if ((32 <=? n) && (n <=? 126))%nat then String c EmptyString
  else "\u00" +:+ String (hex_digit (n / 16)) (String (hex_digit (n mod 16)) EmptyString).

Fixpoint escape (s : string) : string :=
  match s with
  | EmptyString => EmptyString
  | String c r => escape_char c +:+ escape r
  end.

Definition dumps_str (s : string) : string :=
  String dquote (escape s +:+ String dquote EmptyString).

(** The elements of an array after the opening bracket, and the members
    of an object after the opening brace, [f] writing a value. *)
Fixpoint dumps_items (f : pyval -> string) (l : list pyval) : string :=
  match l with
  | [] => "]"
  | x :: r =>
      match r with
      | [] => f x +:+ "]"
      | _ => f x +:+ ", " +:+ dumps_items f r
      end
  end.

Fixpoint dumps_members (f : pyval -> string) (d : list (string * pyval)) : string :=
  match d with
  | [] => "}"
  | (k, x) :: r =>
      match r with
      | [] => dumps_str k +:+ ": " +:+ f x +:+ "}"
      | _ => dumps_str k +:+ ": " +:+ f x +:+ ", " +:+ dumps_members f r
      end
  end.

(** [json.dumps(v)] with the default separators. *)
Fixpoint dumps (v : pyval) : string :=
  match v with
  | PNone => "null"
  | PBool true => "true"
  | PBool false => "false"
  | PInt z => pretty z
  | PStr s => dumps_str s
  | PList l => "[" +:+ dumps_items dumps l
  | PDict d => "{" +:+ dumps_members dumps d
  end.

Definition is_json_ws (c : ascii) : bool :=
  let n := code c in
  ((n =? 32) || (n =? 9) || (n =? 10) || (n =? 13))%nat.

Definition skip_ws (s : string) : string := lstrip_by is_json_ws s.

(** The characters of a string literal after the opening quote, up to and
    including the closing quote.  A [\u] escape above 255 has no
    counterpart among the characters of the model and is refused. *)
Fixpoint parse_chars (s : string) : option (string * string) :=
  match s with
  | EmptyString => None
  | String c r =>
      if (code c =? 34)%nat then Some (EmptyString, r)
      else if (code c =? 92)%nat then
        match r with
        | String e r1 =>
            let simple (x : ascii) :=
              match parse_chars r1 with
              | Some (t, rest) => Some (String x t, rest)
              | None => None
              end in
            if (code e =? 34)%nat then simple dquote
            else if (code e =? 92)%nat then simple backslash
            else if (code e =? 47)%nat then simple (ascii_of_nat 47)
            else if (code e =? 98)%nat then simple (ascii_of_nat 8)
            else if (code e =? 102)%nat then simple (ascii_of_nat 12)
            else if (code e =? 110)%nat then simple (ascii_of_nat 10)
            else if (code e =? 114)%nat then simple (ascii_of_nat 13)
            else if (code e =? 116)%nat then simple (ascii_of_nat 9)
            else if (code e =? 117)%nat then
              match r1 with
              | String h1 (String h2 (String h3 (String h4 r2))) =>
                  match hex_value h1, hex_value h2, hex_value h3, hex_value h4 with
                  | Some a, Some b, Some c', Some d =>
                      let n := (((a * 16 + b) * 16 + c') * 16 + d)%nat in
                      if (n <? 256)%nat then
                        match parse_chars r2 with
                        | Some (t, rest) => Some (String (ascii_of_nat n) t, rest)
                        | None => None
                        end
                      else None
                  | _, _, _, _ => None
                  end
              | _ => None
              end
            else None
        | EmptyString => None
        end
      else if (code c <? 32)%nat then None
      else
        match parse_chars r with
        | Some (t, rest) => Some (String c t, rest)
        | None => None
        end
  end.

(** A run of decimal digits read as a natural number. *)
Fixpoint parse_digits (s : string) (acc : N) : N * string :=
  match s with
  | EmptyString => (acc, s)
  | String c r =>
      if is_digit c then parse_digits r (acc * 10 + N.of_nat (code c - 48))%N
      else (acc, s)
  end.

Definition starts_fraction (s : string) : bool :=
  match s with
  | String c _ => ((code c =? 46) || (code c =? 101) || (code c =? 69))%nat
  | EmptyString => false
  end.

(** An integer literal; a fraction or an exponent makes a float, which the
    model does not have. *)
Definition parse_nat (s : string) : option (N * string) :=
  match s with
  | String c r =>
      if (code c =? 48)%nat then
        match r with
        | String d _ => if is_digit d then None
                        else if starts_fraction r then None else Some (0%N, r)
        | EmptyString => Some (0%N, r)
        end
      else if is_digit c then
        let '(n, rest) := parse_digits s 0%N in
        if starts_fraction rest then None else Some (n, rest)
      else None
  | EmptyString => None
  end.

(** The recursive-descent reader, by fuel: [parse_value] reads one value
    at the head of [s], [parse_items] the rest of an array from its next
    element on, [parse_members] the rest of an object from its next key
    on.  Each returns what follows. *)
Fixpoint parse_value (fuel : nat) (s : string) : option (pyval * string) :=
  match fuel with
  | O => None
  | S f =>
      if startswith "null" s then Some (PNone, str_drop 4 s)
      else if startswith "true" s then Some (PBool true, str_drop 4 s)
      else if startswith "false" s then Some (PBool false, str_drop 5 s)
      else
        match s with
        | EmptyString => None
        | String c r =>
            if (code c =? 34)%nat then
              match parse_chars r with
              | Some (t, rest) => Some (PStr t, rest)
              | None => None
              end
            else if (code c =? 91)%nat then
              match skip_ws r with
              | String c1 r1 =>
                  if (code c1 =? 93)%nat then Some (PList [], r1)
                  else
                    match parse_items f (skip_ws r) with
                    | Some (l, rest) => Some (PList l, rest)
                    | None => None
                    end
              | EmptyString => None
              end
            else if (code c =? 123)%nat then
              match skip_ws r with
              | String c1 r1 =>
                  if (code c1 =? 125)%nat then Some (PDict [], r1)
                  else
                    match parse_members f (skip_ws r) [] with
                    | Some (d, rest) => Some (PDict d, rest)
                    | None => None
                    end
              | EmptyString => None
              end
            else if (code c =? 45)%nat then
              match parse_nat r with
              | Some (n, rest) => Some (PInt (- Z.of_N n), rest)
              | None => None
              end
            else
              match parse_nat s with
              | Some (n, rest) => Some (PInt (Z.of_N n), rest)
              | None => None
              end
        end
  end
with parse_items (fuel : nat) (s : string) : option (list pyval * string) :=
  match fuel with
  | O => None
  | S f =>
      match parse_value f s with
      | Some (v, rest) =>
          match skip_ws rest with
          | String c r =>
              if (code c =? 93)%nat then Some ([v], r)
              else if (code c =? 44)%nat then
                match parse_items f (skip_ws r) with
                | Some (l, rest') => Some (v :: l, rest')
                | None => None
                end
              else None
          | EmptyString => None
          end
      | None => None
      end
  end
with parse_members (fuel : nat) (s : string) (acc : list (string * pyval))
  : option (list (string * pyval) * string) :=
  match fuel with
  | O => None
  | S f =>
      match s with
      | String q r =>
          if (code q =? 34)%nat then
            match parse_chars r with
            | Some (k, rest) =>
                match skip_ws rest with
                | String colon rest1 =>
                    if (code colon =? 58)%nat then
                      match parse_value f (skip_ws rest1) with
                      | Some (v, rest2) =>
                          let acc' := items_set acc k v in
                          match skip_ws rest2 with
                          | String c r2 =>
                              if (code c =? 125)%nat then Some (acc', r2)
                              else if (code c =? 44)%nat then parse_members f (skip_ws r2) acc'
                              else None
                          | EmptyString => None
                          end
                      | None => None
                      end
                    else None
                | EmptyString => None
                end
            | None => None
            end
          else None
      | EmptyString => None
      end
  end.

(** [json.loads(s)]; [None] stands for [JSONDecodeError]. *)
Definition loads (s : string) : option pyval :=
  match parse_value (S (String.length s)) (skip_ws s) with
  | Some (v, rest) =>
      match skip_ws rest with
      | EmptyString => Some v
      | _ => None
      end
  | None => None
  end.

End Json.

(* ===================================================================== *)
(** * The world: store, servers, exceptions *)
(* ===================================================================== *)

(** The two exception classes the handlers tell apart. *)
Inductive exn : Type :=
| Exception (msg : string)
| JSONDecodeError (msg : string).

(** [str(e)] *)
Definition exn_str (e : exn) : string :=
  match e with
  | Exception msg => msg
  | JSONDecodeError msg => msg
  end.

Inductive outcome (A : Type) : Type :=
| Returned (a : A)
| Raised (e : exn).
Arguments Returned {A} a.
Arguments Raised {A} e.

(** A SQLite cell. *)
Inductive sqlval : Type :=
| SqlNull
| SqlInteger (z : Z)
| SqlText (s : string).

(** One hit of the search API: a dictionary with the keys [url], [title]
    and [text], any of which may be absent. *)
Definition result : Type := gmap string string.

(** What [response.json()] gives. *)
Inductive json_body : Type :=
| NoJson                                   (* the body is not JSON: [json()] raises *)
| ChatCompletion (content : string)        (* [choices[0].message.content] *)
| SearchResponse (results : list result)   (* [results] *)
| ErrorJson (message : option string)      (* [error], with or without [message] *)
| OtherJson.                               (* an object with none of these *)

Record response : Type := Response {
  status_code : Z;
  text : string;
  json : json_body
}.

(** The prompt of a chat call is rendered from the arguments of the
    method that sends it; the request records these arguments. *)
Inductive chat_task : Type :=
| SearchQueriesFor (location cuisine : string) (user_prefs : pydict)
| NutritionAdvice (query : string) (user_prefs : pydict)
| WorkoutPlan (user_prefs : pydict) (query : string)
| RestaurantRecommendations (results : list result) (location : string)
                            (user_prefs : pydict)
| FoodExtraction (query : string).

Inductive payload : Type :=
| MistralChat (task : chat_task) (max_tokens : Z)
| ExaSearch (query : string) (numResults : Z).

Record request : Type := Request {
  req_url : string;
  req_key : string;       (* the credential put in the headers *)
  req_timeout : Z;
  req_json : payload
}.

(** [requests.post] either raises (no connection, timeout) or returns. *)
Inductive reply : Type :=
| Unreachable (msg : string)
| Answered (r : response).

Record log_row : Type := LogRow {
  log_id : Z;
  log_user_id : sqlval;
  log_food_item : sqlval;
  log_calories : sqlval;
  log_timestamp : string
}.

Record world : Type := World {
  (** table [user_preferences], by its [UNIQUE] column [user_id]; a row
      maps column names to cells *)
  user_preferences : gmap string (gmap string sqlval);
  preferences_seq : Z;                 (* its [AUTOINCREMENT] counter *)
  nutrition_logs : list log_row;       (* table [nutrition_logs], oldest first *)
  now : string;                        (* [CURRENT_TIMESTAMP] *)
  server : nat -> request -> reply;    (* the answer to the n-th request sent *)
  sent : list request                  (* the requests sent so far, oldest first *)
}.

Record Config : Type := {
  mistral_api_key : string;
  exa_api_key : string
}.

(** Computations. *)
Definition py (A : Type) : Type := world -> outcome A * world.

#[global] Instance py_ret : MRet py := fun A a w => (Returned a, w).

#[global] Instance py_bind : MBind py := fun A B f m w =>
  match m w with
  | (Returned a, w') => f a w'
  | (Raised e, w') => (Raised e, w')
  end.

Definition raise {A : Type} (e : exn) : py A := fun w => (Raised e, w).

(** [try: m  except Exception as e: h e] *)
Definition try_except {A : Type} (m : py A) (h : exn -> py A) : py A := fun w =>
  match m w with
  | (Returned a, w') => (Returned a, w')
  | (Raised e, w') => h e w'
  end.

(** [try: m  except json.JSONDecodeError: h]; other exceptions pass. *)
Definition try_except_json {A : Type} (m : py A) (h : py A) : py A := fun w =>
  match m w with
  | (Raised (JSONDecodeError _), w') => h w'
  | r => r
  end.

Definition get_world : py world := fun w => (Returned w, w).

Definition mistral_url : string := "https://api.mistral.ai/v1/chat/completions".
Definition exa_url : string := "https://api.exa.ai/search".

(** [requests.post(url, headers=..., json=..., timeout=...)] *)
Definition record_request (req : request) (w : world) : world :=
  World (user_preferences w) (preferences_seq w) (nutrition_logs w)
        (now w) (server w) (sent w ++ [req]).

Definition requests_post (req : request) : py response := fun w =>
  let w' := record_request req w in
  match server w (length (sent w)) req with
  | Unreachable msg => (Raised (Exception msg), w')
  | Answered r => (Returned r, w')
  end.

(** [response.json()] *)
Definition response_json (r : response) : py json_body :=
  match json r with
  | NoJson => raise (JSONDecodeError "Expecting value: line 1 column 1 (char 0)")
  | b => mret b
  end.

(** [result['choices'][0]['message']['content'].strip()] *)
Definition chat_content (b : json_body) : py string :=
  match b with
  | ChatCompletion content => mret (strip content)
  | _ => raise (Exception "'choices'")
  end.

(* ===================================================================== *)
(** * Preference store *)
(* ===================================================================== *)

(** Binding a Python value to a statement parameter; lists and
    dictionaries are not supported by the driver. *)
Definition sql_bind (v : pyval) : py sqlval :=
  match v with
  | PNone => mret SqlNull
  | PBool b => mret (SqlInteger (if b then 1 else 0))
  | PInt z => mret (SqlInteger z)
  | PStr s => mret (SqlText s)
  | PList _ | PDict _ => raise (Exception "Error binding parameter: type is not supported")
  end.

Definition sql_read (c : sqlval) : pyval :=
  match c with
  | SqlNull => PNone
  | SqlInteger z => PInt z
  | SqlText s => PStr s
  end.

(** [INSERT OR REPLACE INTO user_preferences (...) VALUES (...)]: the row
    of the same [user_id], if any, is replaced. *)
Definition insert_or_replace_preferences (user_id : string)
    (cells : list (string * sqlval)) : py unit := fun w =>
  let id := preferences_seq w + 1 in
  let row : gmap string sqlval :=
    list_to_map (("id", SqlInteger id) :: ("user_id", SqlText user_id) :: cells ++
                 [("created_at", SqlText (now w)); ("updated_at", SqlText (now w))]) in
  (Returned tt,
   World (<[user_id := row]> (user_preferences w)) id (nutrition_logs w)
         (now w) (server w) (sent w)).

(** [SELECT * FROM user_preferences WHERE user_id = ?] then [fetchone]. *)
Definition select_preferences (user_id : string) : py (option (gmap string sqlval)) :=
  fun w => (Returned (user_preferences w !! user_id), w).

(** [INSERT INTO nutrition_logs (user_id, food_item, calories) VALUES (...)] *)
Definition insert_log (user_id food_item calories : sqlval) : py unit := fun w =>
  let id := Z.of_nat (length (nutrition_logs w)) + 1 in
  (Returned tt,
   World (user_preferences w) (preferences_seq w)
         (nutrition_logs w ++ [LogRow id user_id food_item calories (now w)])
         (now w) (server w) (sent w)).

Definition scalar_columns : list string :=
  ["weight_goal"; "current_weight"; "activity_level"; "age"; "gender";
   "height_cm"; "daily_calorie_target"; "protein_target"; "carb_target";
   "fat_target"].

(** The parameters of the statement that come from [preferences.get(k)]. *)
Fixpoint bind_columns (preferences : pydict) (columns : list string)
  : py (list (string * sqlval)) :=
  match columns with
  | [] => mret []
  | k :: r =>
      c ← sql_bind (py_get preferences k);
      cs ← bind_columns preferences r;
      mret ((k, c) :: cs)
  end.

Definition save_user_preferences (user_id : string) (preferences : pydict) : py string :=
  try_except
    (let dietary_restrictions :=
       Json.dumps (default (PList []) (preferences !! "dietary_restrictions")) in
     let food_allergies :=
       Json.dumps (default (PList []) (preferences !! "food_allergies")) in
     let cuisine_preferences :=
       Json.dumps (default (PList []) (preferences !! "cuisine_preferences")) in
     let health_goals :=
       Json.dumps (default (PDict []) (preferences !! "health_goals")) in
     scalars ← bind_columns preferences scalar_columns;
     _ ← insert_or_replace_preferences user_id
           (("dietary_restrictions", SqlText dietary_restrictions) ::
            ("food_allergies", SqlText food_allergies) ::
            ("cuisine_preferences", SqlText cuisine_preferences) ::
            ("health_goals", SqlText health_goals) :: scalars);
     mret "✅ Preferences saved successfully!")
    (fun e => mret ("❌ Error saving preferences: " +:+ exn_str e)).

(** [json.loads(v)]: the argument must be text. *)
Definition json_loads (v : pyval) : py pyval :=
  match v with
  | PStr s =>
      match Json.loads s with
      | Some x => mret x
      | None => raise (JSONDecodeError "Expecting value")
      end
  | _ => raise (Exception "the JSON object must be str, bytes or bytearray")
  end.

(** [preferences[k] = json.loads(preferences.get(k, dflt))] for each of
    the four encoded columns in turn.  The dictionary is updated in
    place, so it is part of the outcome also when a later key raises. *)
Fixpoint parse_json_fields (fields : list (string * string)) (preferences : pydict)
  : py pydict :=
  match fields with
  | [] => mret preferences
  | (k, dflt) :: r =>
      try_except_json
        (v ← json_loads (default (PStr dflt) (preferences !! k));
         parse_json_fields r (<[k := v]> preferences))
        (mret preferences)
  end.

Definition json_columns : list (string * string) :=
  [("dietary_restrictions", "[]"); ("food_allergies", "[]");
   ("cuisine_preferences", "[]"); ("health_goals", "{}")].

Definition get_user_preferences (user_id : string) : py pydict :=
  try_except
    (row ← select_preferences user_id;
     match row with
     | None => mret ∅
     | Some row =>
         let preferences : pydict := sql_read <$> row in
         parse_json_fields json_columns preferences
     end)
    (fun e => mret ∅).

(** [user_prefs = {}] followed by
    [if user_id: user_prefs = self.get_user_preferences(user_id)]. *)
Definition load_user_prefs (user_id : option string) : py pydict :=
  if truthy_opt user_id
  then get_user_preferences (default "" user_id)
  else mret ∅.

(* ===================================================================== *)
(** * Query composer *)
(* ===================================================================== *)

Definition newline : string := String (ascii_of_nat 10) EmptyString.

(** [for x in v]: the elements of a list, the characters of a string, the
    keys of a dictionary; nothing else can be iterated. *)
Definition py_iter (v : pyval) : py (list pyval) :=
  match v with
  | PList l => mret l
  | PStr s => mret (map (fun c => PStr (String c EmptyString)) (list_ascii_of_string s))
  | PDict d => mret (map (fun kv => PStr (fst kv)) d)
  | _ => raise (Exception "object is not iterable")
  end.

(** [x.lower()]: only a string has the method. *)
Definition py_lower (v : pyval) : py string :=
  match v with
  | PStr s => mret (lower s)
  | _ => raise (Exception "object has no attribute 'lower'")
  end.

(** [x.get(key)]: only a dictionary has the method. *)
Definition py_dict_get (v : pyval) (key : string) : py pyval :=
  match v with
  | PDict d => mret (default PNone (items_get d key))
  | _ => raise (Exception "object has no attribute 'get'")
  end.

(** The [if]/[elif] chain that maps a restriction to its search term;
    a restriction that matches no keyword contributes nothing. *)
Definition dietary_term (restriction_lower : string) : option string :=
  if contains "vegetarian" restriction_lower then Some "vegetarian"
  else if contains "vegan" restriction_lower then Some "vegan"
  else if contains "pescatarian" restriction_lower then Some "pescatarian"
  else if contains "keto" restriction_lower then Some "keto"
  else if contains "gluten" restriction_lower then Some "gluten-free"
  else if contains "halal" restriction_lower then Some "halal"
  else if contains "kosher" restriction_lower then Some "kosher"
  else None.

Fixpoint collect_dietary_terms (restrictions : list pyval) : py (list string) :=
  match restrictions with
  | [] => mret []
  | restriction :: r =>
      s ← py_lower restriction;
      terms ← collect_dietary_terms r;
      mret (match dietary_term s with
            | Some t => t :: terms
            | None => terms
            end)
  end.

Definition _generate_fallback_queries (location : string) (user_prefs : pydict)
    (cuisine : string) : py (list string) :=
  (* Build dietary restriction string *)
  dietary_terms ←
    (if py_truthy (py_get user_prefs "dietary_restrictions") then
       restrictions ← py_iter (py_get user_prefs "dietary_restrictions");
       collect_dietary_terms restrictions
     else mret []);
  (* Build health goal terms *)
  health_terms ←
    (if py_truthy (py_get user_prefs "health_goals") then
       weight_loss ← py_dict_get (py_get user_prefs "health_goals") "weight_loss";
       muscle_gain ← py_dict_get (py_get user_prefs "health_goals") "muscle_gain";
       mret ((if py_truthy weight_loss then ["healthy"] else []) ++
             (if py_truthy muscle_gain then ["protein-rich"] else []))
     else mret []);
  (* Query 1: basic location + dietary *)
  let dietary_str := match dietary_terms with [] => "" | _ => join " " dietary_terms end in
  let cuisine_str := if truthy cuisine then cuisine else "restaurants" in
  let query1 := strip ("best " +:+ dietary_str +:+ " " +:+ cuisine_str +:+ " in " +:+ location) in
  (* Query 2: location + health focus *)
  let health_str := match health_terms with [] => "good" | _ => join " " health_terms end in
  let query2 := strip (health_str +:+ " restaurants " +:+ location +:+ " reviews") in
  (* Query 3: platform-specific search *)
  let platform_query := location +:+ " restaurants" in
  let platform_query :=
    match dietary_terms with
    | [] => platform_query
    | first :: _ => platform_query +:+ " " +:+ first
    end in
  let platform_query := platform_query +:+ " zomato swiggy" in
  mret [query1; query2; platform_query].

Definition _generate_smart_search_queries (self : Config) (location : string)
    (user_prefs : pydict) (cuisine : string) : py (list string) :=
  generated ←
    (if truthy (mistral_api_key self) then
       try_except
         (response ← requests_post
            (Request mistral_url (mistral_api_key self) 20
               (MistralChat (SearchQueriesFor location cuisine user_prefs) 300));
          if status_code response =? 200 then
            result ← response_json response;
            content ← chat_content result;
            let queries :=
              filter (fun q => truthy q = true) (map strip (split newline content)) in
            if (3 <=? length queries)%nat then mret (Some (firstn 3 queries))
            else mret None
          else mret None)
         (fun e => mret None)
     else mret None);
  match generated with
  | Some queries => mret queries
  | None =>
      (* Fallback to basic query generation when AI is not available or fails *)
      _generate_fallback_queries location user_prefs cuisine
  end.

(* ===================================================================== *)
(** * Search aggregator *)
(* ===================================================================== *)

(** A value of the dictionary that [search_restaurants] returns. *)
Inductive field : Type :=
| FText (s : string)
| FCount (n : nat)
| FResults (l : list result).

Definition search_dict : Type := gmap string field.

(** The value of [cuisine] taken from the profile, as the callee sees it:
    it is tested for truth and formatted, nothing else. *)
Definition as_cuisine (v : pyval) : string :=
  match v with
  | PStr s => s
  | _ => if py_truthy v then py_str v else ""
  end.

(** [v[0]] *)
Definition py_first (v : pyval) : py pyval :=
  match v with
  | PList (x :: _) => mret x
  | PStr (String c _) => mret (PStr (String c EmptyString))
  | PList [] | PStr EmptyString => raise (Exception "index out of range")
  | PDict _ => raise (Exception "0")
  | _ => raise (Exception "object is not subscriptable")
  end.

(** [data.get("results", [])] *)
Definition response_results (data : json_body) : list result :=
  match data with
  | SearchResponse results => results
  | _ => []
  end.

Definition search_request (self : Config) (query : string) : request :=
  Request exa_url (exa_api_key self) 10 (ExaSearch query 4).

(** The body of the loop [for i, query in enumerate(search_queries[:6], 1)].
    It returns whether the loop is left by [break], and the new values of
    [all_results] and [successful_queries]. *)
Definition search_step (self : Config) (query : string)
    (all_results : list result) (successful_queries : nat)
  : py (bool * list result * nat) :=
  try_except
    (response ← requests_post (search_request self query);
     if status_code response =? 200 then
       data ← response_json response;
       let results := response_results data in
       let all_results := all_results ++ results in
       let successful_queries := S successful_queries in
       (* If we have enough results, stop searching *)
       if (10 <=? length all_results)%nat
       then mret (true, all_results, successful_queries)
       else mret (false, all_results, successful_queries)
     else mret (false, all_results, successful_queries))
    (fun e => mret (false, all_results, successful_queries)).

(** The loop, from the query at the head of [queries] on.  It returns
    [all_results] and [successful_queries]. *)
Fixpoint search_loop (self : Config) (queries : list string)
    (all_results : list result) (successful_queries : nat)
  : py (list result * nat) :=
  match queries with
  | [] => mret (all_results, successful_queries)
  | query :: rest =>
      step ← search_step self query all_results successful_queries;
      let '(stop, all_results, successful_queries) := step in
      if stop : bool then mret (all_results, successful_queries)
      else search_loop self rest all_results successful_queries
  end.

(** [result.get("url", "")] *)
Definition result_url (result : result) : string := default "" (result !! "url").

(** The pass that removes duplicates based on URL. *)
Fixpoint dedup_pass (all_results : list result) (seen_urls : gset string)
  : list result :=
  match all_results with
  | [] => []
  | result :: rest =>
      let url := result_url result in
      if truthy url && negb (bool_decide (url ∈ seen_urls))
      then result :: dedup_pass rest ({[url]} ∪ seen_urls)
      else dedup_pass rest seen_urls
  end.

Definition unique_results_of (all_results : list result) : list result :=
  dedup_pass all_results ∅.

(** The first block of [search_restaurants]: the profile is read, the
    cuisine is defaulted from it and the search queries are composed. *)
Definition search_queries_for (self : Config) (location cuisine : string)
    (user_id : option string) : py (list string) :=
  (* Get user preferences for personalized search *)
  user_prefs ← load_user_prefs user_id;
  (* Use preferred cuisine from user preferences if none specified *)
  cuisine ← (if negb (truthy cuisine) &&
                py_truthy (py_get user_prefs "cuisine_preferences")
             then c ← py_first (py_get user_prefs "cuisine_preferences");
                  mret (as_cuisine c)
             else mret cuisine);
  _generate_smart_search_queries self location user_prefs cuisine.

(** The last block of [search_restaurants], after the query loop:
    duplicates are removed and the dictionary to return is built. *)
Definition search_post_pass (search_queries : list string)
    (all_results : list result) (successful_queries : nat) : search_dict :=
  let unique_results := unique_results_of all_results in
  match unique_results with
  | [] =>
      {[ "results" := FResults [];
         "total_found" := FCount 0;
         "debug_info" := FText ("Tried " +:+ pretty (length search_queries) +:+
            " search queries, " +:+ pretty successful_queries +:+
            " successful API calls, but got 0 unique results") ]}
  | _ =>
      {[ "results" := FResults (firstn 8 unique_results);
         "total_found" := FCount (length unique_results);
         "debug_info" := FText ("Successfully found " +:+
            pretty (length unique_results) +:+ " restaurants using " +:+
            pretty successful_queries +:+ " successful queries") ]}
  end.

Definition search_restaurants (self : Config) (location cuisine : string)
    (user_id : option string) : py search_dict :=
  try_except
    (if negb (truthy (exa_api_key self)) then
       mret {[ "error" := FText "🔑 EXA_API_KEY not configured. Please set your Exa API key in environment variables to enable restaurant search." ]}
     else
       search_queries ← search_queries_for self location cuisine user_id;
       (* Try multiple search strategies to get more comprehensive results *)
       '(all_results, successful_queries) ←
          search_loop self (firstn 6 search_queries) [] 0;
       mret (search_post_pass search_queries all_results successful_queries))
    (fun e => mret {[ "error" := FText ("Search failed: " +:+ exn_str e +:+
                        ". Please check your EXA_API_KEY configuration.") ]}).

(* ===================================================================== *)
(** * Response synthesizer *)
(* ===================================================================== *)

(** A text given line by line, the lines being joined by a newline. *)
Definition lines (ls : list string) : string := join newline ls.

(** [enumerate(l, i)] *)
Fixpoint enumerate (i : nat) {A : Type} (l : list A) : list (nat * A) :=
  match l with
  | [] => []
  | x :: r => (i, x) :: enumerate (S i) r
  end.

Definition concat_map {A : Type} (f : A -> string) (l : list A) : string :=
  fold_right (fun x acc => f x +:+ acc) "" l.

Definition _generate_ai_restaurant_recommendations (self : Config)
    (results : list result) (location : string) (user_prefs : pydict) : py string :=
  try_except
    (if negb (truthy (mistral_api_key self)) then
       (* Fallback to simple formatting if no AI available *)
       mret ("🍽️ **Found " +:+ pretty (length results) +:+
             " restaurant recommendations for " +:+ location +:+ ":**" +:+
             newline +:+ newline +:+
             concat_map (fun '(i, result) =>
                 let title := default "Restaurant" (result !! "title") in
                 let url := default "" (result !! "url") in
                 pretty i +:+ ". **" +:+ title +:+ "**" +:+ newline +:+ url +:+
                 newline +:+ newline)
               (enumerate 1 (firstn 5 results)))
     else
       response ← requests_post
         (Request mistral_url (mistral_api_key self) 25
            (MistralChat (RestaurantRecommendations results location user_prefs) 1000));
       if status_code response =? 200 then
         result ← response_json response;
         chat_content result
       else
         (* Fallback to simple list *)
         mret ("🍽️ **Found " +:+ pretty (length results) +:+
               " great restaurant options in " +:+ location +:+ ":**" +:+
               newline +:+ newline +:+
               concat_map (fun '(i, result) =>
                   let title := default "Restaurant" (result !! "title") in
                   let url := default "" (result !! "url") in
                   pretty i +:+ ". **" +:+ title +:+ "**" +:+ newline +:+
                   (if truthy url then "🔗 " +:+ url +:+ newline else "") +:+
                   newline)
                 (enumerate 1 (firstn 5 results))))
    (fun e =>
       (* Simple fallback *)
       mret ("🍽️ **Found " +:+ pretty (length results) +:+ " restaurants in " +:+
             location +:+ ":**" +:+ newline +:+ newline +:+
             concat_map (fun '(i, result) =>
                 let title := default "Restaurant" (result !! "title") in
                 pretty i +:+ ". " +:+ title +:+ newline)
               (enumerate 1 (firstn 5 results)))).

(** The fields of the dictionary of [search_restaurants] have fixed
    types; a field of another type makes the access raise. *)
Definition field_text (f : field) : py string :=
  match f with
  | FText s => mret s
  | _ => raise (Exception "unexpected field type")
  end.

Definition field_results (f : field) : py (list result) :=
  match f with
  | FResults l => mret l
  | _ => raise (Exception "unexpected field type")
  end.

Definition format_restaurant_results (self : Config) (search_results : search_dict)
    (location : string) (user_prefs : pydict) : py string :=
  try_except
    (match search_results !! "error" with
     | Some err =>
         (* Handle errors *)
         error_msg ← field_text err;
         if contains "EXA_API_KEY" error_msg then
           mret (lines
             ["🔑 **Restaurant Search Not Available**"; "";
              error_msg; "";
              "**To enable real-time restaurant search:**";
              "1. Get an API key from https://exa.ai";
              "2. Add `EXA_API_KEY=your_key_here` to your .env file";
              "3. Restart the application"; "";
              "**Meanwhile, here are dining tips for " +:+ location +:+ ":**";
              "• Check Zomato, Google Maps, or TripAdvisor for reviews";
              "• Look for restaurants with healthy menu options";
              "• Consider the cooking methods - grilled, baked, or steamed are better choices"])
         else
           mret (lines
             ["⚠️ **Search Issue:** " +:+ error_msg; "";
              "**General dining tips for " +:+ location +:+ ":**";
              "• Look for restaurants with good reviews on Google Maps or Zomato";
              "• Check for healthy options like grilled proteins and fresh vegetables";
              "• Consider the cooking methods - grilled, baked, or steamed are better choices";
              "• Watch portion sizes and consider sharing dishes"])
     | None =>
         results ← field_results (default (FResults []) (search_results !! "results"));
         debug_info ← field_text (default (FText "") (search_results !! "debug_info"));
         match results with
         | [] =>
             let debug_msg :=
               if truthy debug_info
               then newline +:+ newline +:+ "🔍 **Debug Info:** " +:+ debug_info
               else "" in
             mret (lines
               ["🤔 **No Restaurant Results Found**"; "";
                "I searched extensively but couldn't find specific restaurant recommendations for **" +:+ location +:+ "** right now. This could be due to:"; "";
                "• **Location specificity**: Try a broader area (e.g., 'Mumbai' instead of 'Bandra West')";
                "• **Search timing**: Restaurant databases might be updating";
                "• **API limitations**: Some regions have limited coverage"; "";
                "**Meanwhile, here are proven ways to find great restaurants:**";
                "• 🔍 **Zomato/Swiggy**: Best for Indian locations with reviews and ratings";
                "• 🗺️ **Google Maps**: Search 'restaurants near [location]' with photos and reviews";
                "• ✈️ **TripAdvisor**: Great for tourist areas and popular spots";
                "• 👥 **Ask locals**: Social media groups or friends in the area" +:+ debug_msg])
         | _ =>
             (* Use Mistral AI to generate a conversational response *)
             _generate_ai_restaurant_recommendations self results location user_prefs
         end
     end)
    (fun e =>
       mret ("Found some restaurants for " +:+ location +:+
             ", but had trouble formatting the results. Try searching on Zomato or Google Maps for local recommendations!")).

(* ===================================================================== *)
(** * Advice, workout plans and food logging *)
(* ===================================================================== *)

Definition _get_ai_nutrition_advice (self : Config) (query : string)
    (user_prefs : pydict) : py string :=
  try_except
    (if negb (truthy (mistral_api_key self)) then
       mret "❌ Mistral API key not configured. Please set MISTRAL_API_KEY in your environment variables."
     else
       response ← requests_post
         (Request mistral_url (mistral_api_key self) 30
            (MistralChat (NutritionAdvice query user_prefs) 1000));
       if status_code response =? 200 then
         result ← response_json response;
         chat_content result
       else
         let error_msg := "Mistral Agents API error: " +:+ pretty (status_code response) in
         let error_msg :=
           match json response with
           | NoJson => error_msg +:+ " - " +:+ str_take 100 (text response)
           | ErrorJson (Some message) => error_msg +:+ " - " +:+ message
           | ErrorJson None => error_msg +:+ " - Unknown error"
           | _ => error_msg
           end in
         if status_code response =? 401 then
           mret "❌ Authentication Error (401): Invalid Mistral API key. Please check your API key configuration."
         else
           mret ("❌ API Error (" +:+ pretty (status_code response) +:+ "): " +:+ error_msg))
    (fun e => mret ("❌ Error: " +:+ exn_str e)).

(** [generate_workout_plan]: no [try] here, every exception leaves the
    method. *)
Definition generate_workout_plan (self : Config) (user_prefs : pydict)
    (query : string) : py string :=
  if negb (truthy (mistral_api_key self)) then
    raise (Exception "🔑 MISTRAL_API_KEY required for personalized workout plans. Please configure your API key.")
  else
    response ← requests_post
      (Request mistral_url (mistral_api_key self) 30
         (MistralChat (WorkoutPlan user_prefs query) 1500));
    if negb (status_code response =? 200) then
      raise (Exception ("Mistral Agents API failed with status " +:+
                        pretty (status_code response) +:+ ": " +:+ text response))
    else
      result ← response_json response;
      chat_content result.

Definition log_food_intake (user_id : string) (food_item calories : pyval) : py string :=
  try_except
    (food_cell ← sql_bind food_item;
     calories_cell ← sql_bind calories;
     _ ← insert_log (SqlText user_id) food_cell calories_cell;
     mret ("Logged: " +:+ py_str food_item +:+ " (" +:+ py_str calories +:+ " calories)"))
    (fun e => mret ("Error logging food: " +:+ exn_str e)).

(** [food_data.get(key, dflt)] *)
Definition py_dict_get_default (v : pyval) (key : string) (dflt : pyval) : py pyval :=
  match v with
  | PDict d => mret (default dflt (items_get d key))
  | _ => raise (Exception "object has no attribute 'get'")
  end.

Definition _handle_food_logging_request (self : Config) (query : string)
    (user_id : option string) (user_prefs : pydict) : py string :=
  try_except
    (if negb (truthy_opt user_id) then
       mret "❌ Please set your User ID first to log food. Go to '🎯 Set Preferences' to set your User ID."
     else
       (* Use AI to extract food information from natural language *)
       response ← requests_post
         (Request mistral_url (mistral_api_key self) 15
            (MistralChat (FoodExtraction query) 100));
       if status_code response =? 200 then
         result ← response_json response;
         ai_response ← chat_content result;
         (* Try to parse JSON response *)
         try_except_json
           (food_data ← json_loads (PStr ai_response);
            food_item ← py_dict_get_default food_data "food_item" (PStr "Unknown food");
            calories ← py_dict_get_default food_data "calories" (PInt 0);
            (* Log the food *)
            log_result ← log_food_intake (default "" user_id) food_item calories;
            let response_msg := "✅ " +:+ log_result in
            (* Add calorie target progress if available *)
            let response_msg :=
              if py_truthy (py_get user_prefs "daily_calorie_target") then
                response_msg +:+ newline +:+ "📊 Progress: Added " +:+ py_str calories +:+
                " calories toward your " +:+
                py_str (py_get user_prefs "daily_calorie_target") +:+ " calorie target."
              else response_msg in
            (* Add nutrition tips based on user preferences *)
            let response_msg :=
              if py_truthy (py_get user_prefs "dietary_restrictions") ||
                 py_truthy (py_get user_prefs "health_goals")
              then response_msg +:+ newline +:+
                   "💡 Tip: Keep up the great work tracking your nutrition!"
              else response_msg in
            mret response_msg)
           (mret "❌ I couldn't understand the food details. Please try: 'I ate [food name]' or 'Had [food name]'")
       else
         mret "❌ I couldn't process your food logging request. Please try: 'I ate [food name]' or 'Had [food name]'")
    (fun e => mret ("❌ Error logging food: " +:+ exn_str e)).

(* ===================================================================== *)
(** * Query router *)
(* ===================================================================== *)

Definition process_nutrition_query (self : Config) (query : string)
    (user_id : option string) : py string :=
  try_except
    (if negb (validate_input query) then
       mret "Invalid input. Please provide a valid nutrition question."
     else
       (* Get user preferences for personalized responses *)
       user_prefs ← load_user_prefs user_id;
       (* Check if this is a food logging request *)
       if _is_food_logging_request query then
         _handle_food_logging_request self query user_id user_prefs
       else
         (* Check if this is a restaurant search query *)
         let location := detect_restaurant_query query in
         if truthy_opt location then
           search_results ← search_restaurants self (default "" location) "" user_id;
           format_restaurant_results self search_results (default "" location) user_prefs
         else
           (* Route queries to appropriate AI-powered handlers *)
           let query_lower := lower query in
           if any_in workout_keywords query_lower then
             generate_workout_plan self user_prefs query
           else
             _get_ai_nutrition_advice self query user_prefs)
    (fun e => mret ("⚠️ Sorry, I encountered an error processing your query: " +:+ exn_str e)).

(* ===================================================================== *)
(** * Sample configurations and worlds *)
(* ===================================================================== *)

Definition no_keys : Config := {| mistral_api_key := ""; exa_api_key := "" |}.

Definition exa_only : Config := {| mistral_api_key := ""; exa_api_key := "exa-key" |}.

(** No server can be reached; the store is empty. *)
Definition offline : world :=
  World ∅ 0 [] "2025-01-01 00:00:00" (fun _ _ => Unreachable "connection refused") [].

Definition hit (url title : string) : result := {[ "url" := url; "title" := title ]}.

(** Four hits per search, two of them new at each call, one repeated
    across calls and one without a usable URL. *)
Definition four_hits (n : nat) : list result :=
  [hit ("https://example.org/" +:+ pretty n +:+ "/a") "A";
   hit ("https://example.org/" +:+ pretty n +:+ "/b") "B";
   hit "https://example.org/same" "Same";
   hit "" "Nameless"].

(** Every search is answered with four hits; the chat endpoint rejects
    the credential. *)
Definition search_only : world :=
  World ∅ 0 [] "2025-01-01 00:00:00"
    (fun n req =>
       match req_json req with
       | ExaSearch _ _ => Answered (Response 200 "" (SearchResponse (four_hits n)))
       | MistralChat _ _ => Answered (Response 401 "Unauthorized" (ErrorJson (Some "Unauthorized")))
       end) [].

Definition vegan_prefs : pydict := {[ "dietary_restrictions" := PList [PStr "Vegan"] ]}.

Definition pune_vegan_queries : list string :=
  ["best vegan restaurants in Pune";
   "good restaurants Pune reviews";
   "Pune restaurants vegan zomato swiggy"].

Definition sample_prefs : pydict :=
  {[ "dietary_restrictions" := PList [PStr "Vegan"; PStr "Gluten-Free"];
     "food_allergies" := PList [PStr "Nuts"];
     "cuisine_preferences" := PList [PStr "Indian"; PStr "Thai"];
     "health_goals" := PDict [("weight_loss", PBool true); ("muscle_gain", PBool false)];
     "age" := PInt 30;
     "gender" := PStr "Female";
     "activity_level" := PStr "Moderate";
     "daily_calorie_target" := PInt 2000 ]}.

(* ===================================================================== *)
(** * Properties of computations *)
(* ===================================================================== *)

(** A computation is silent when it leaves the world as it found it,
    whether it returns or raises: it sends no request and writes no row. *)
Definition silent {A : Type} (m : py A) : Prop := forall w, snd (m w) = w.

(** A computation is safe when it never raises. *)
Definition safe {A : Type} (m : py A) : Prop :=
  forall w, exists a w', m w = (Returned a, w').

Create HintDb py_silent discriminated.

(** The router hands a query to the food-logging handler when its
    outcome is the outcome of the handler, run on the profile that the
    router has read. *)
Definition routes_to_food_logging (self : Config) (query : string)
    (user_id : option string) (w : world) : Prop :=
  exists user_prefs w1,
    load_user_prefs user_id w = (Returned user_prefs, w1) /\
    process_nutrition_query self query user_id w =
    _handle_food_logging_request self query user_id user_prefs w1.

(** The requests that a computation sends when run in [w]. *)
Definition requests_sent {A : Type} (m : py A) (w : world) : list request :=
  skipn (length (sent w)) (sent (snd (m w))).

Definition workout_key_message : string :=
  "🔑 MISTRAL_API_KEY required for personalized workout plans. Please configure your API key.".

Definition advice_key_message : string :=
  "❌ Mistral API key not configured. Please set MISTRAL_API_KEY in your environment variables.".

Definition exa_key_message : string :=
  "🔑 EXA_API_KEY not configured. Please set your Exa API key in environment variables to enable restaurant search.".

(** ** Well-typed preference records

    The record of the data model: numbers in the numeric columns, text
    in the text columns, lists of strings for restrictions, allergies
    and cuisines, and goal names mapped to booleans.  A key may be
    absent.  SQLite stores a value of the declared type of its column as
    it is. *)

Definition numeric_columns : list string :=
  ["weight_goal"; "current_weight"; "age"; "height_cm"; "daily_calorie_target";
   "protein_target"; "carb_target"; "fat_target"].

Definition text_columns : list string := ["activity_level"; "gender"].

Definition list_columns : list string :=
  ["dietary_restrictions"; "food_allergies"; "cuisine_preferences"].

Definition is_number (v : pyval) : bool :=
  match v with PNone | PInt _ => true | _ => false end.

Definition is_text (v : pyval) : bool :=
  match v with PNone | PStr _ => true | _ => false end.

(** The values that are written as one token. *)
Definition is_atom (v : pyval) : bool :=
  match v with PNone | PBool _ | PStr _ => true | _ => false end.

Definition is_str (v : pyval) : bool :=
  match v with PStr _ => true | _ => false end.

Definition is_bool (v : pyval) : bool :=
  match v with PBool _ => true | _ => false end.

Definition is_str_list (v : pyval) : bool :=
  match v with PList l => forallb is_str l | _ => false end.

Definition is_goal_map (v : pyval) : bool :=
  match v with
  | PDict d => forallb (fun kv => is_bool (snd kv)) d && bool_decide (NoDup (fst <$> d))
  | _ => false
  end.

Definition absent_or (f : pyval -> bool) (o : option pyval) : bool :=
  match o with None => true | Some v => f v end.

Definition well_typed (preferences : pydict) : bool :=
  forallb (fun k => absent_or is_number (preferences !! k)) numeric_columns &&
  forallb (fun k => absent_or is_text (preferences !! k)) text_columns &&
  forallb (fun k => absent_or is_str_list (preferences !! k)) list_columns &&
  absent_or is_goal_map (preferences !! "health_goals").

(** The cell that [sql_bind] makes of a number or a text. *)
Definition sql_cell (v : pyval) : sqlval :=
  match v with
  | PInt z => SqlInteger z
  | PStr s => SqlText s
  | PBool b => SqlInteger (if b then 1 else 0)
  | _ => SqlNull
  end.

(** What [save_user_preferences] writes for the key [k] of an encoded
    column when the record lacks it. *)
Definition json_default (k : string) : pyval :=
  if String.eqb k "health_goals" then PDict [] else PList [].

(** The value of the encoded column [k] that is written. *)
Definition encoded_value (preferences : pydict) (k : string) : pyval :=
  default (json_default k) (preferences !! k).

(** The row that [INSERT OR REPLACE] writes, given the values [j] of the
    encoded columns and the cells [c] of the other columns. *)
Definition written_row (id : Z) (user_id stamp : string)
    (j : string -> pyval) (c : string -> sqlval) : gmap string sqlval :=
  list_to_map
    (("id", SqlInteger id) :: ("user_id", SqlText user_id) ::
     (("dietary_restrictions", SqlText (Json.dumps (j "dietary_restrictions"))) ::
      ("food_allergies", SqlText (Json.dumps (j "food_allergies"))) ::
      ("cuisine_preferences", SqlText (Json.dumps (j "cuisine_preferences"))) ::
      ("health_goals", SqlText (Json.dumps (j "health_goals"))) ::
      map (fun k => (k, c k)) scalar_columns) ++
     [("created_at", SqlText stamp); ("updated_at", SqlText stamp)]).

(** The dictionary read from a row once the encoded columns [fields]
    are decoded to the values [j]. *)
Definition decoded (fields : list (string * string)) (j : string -> pyval)
    (preferences : pydict) : pydict :=
  foldl (fun p kd => <[fst kd := j (fst kd)]> p) preferences fields.

(** ** The footprint of a computation *)

(** A request goes to the endpoint of its payload with the credential of
    this endpoint. *)
Definition well_addressed (self : Config) (req : request) : bool :=
  match req_json req with
  | ExaSearch _ _ =>
      String.eqb (req_url req) exa_url && String.eqb (req_key req) (exa_api_key self)
  | MistralChat _ _ =>
      String.eqb (req_url req) mistral_url && String.eqb (req_key req) (mistral_api_key self)
  end.

(** [w'] comes from [w] by appending at most [r] rows to the food log and
    sending at most [n] requests, all well addressed; the preferences,
    the clock and the servers are the same. *)
Definition evolves (self : Config) (r n : nat) (w w' : world) : Prop :=
  user_preferences w' = user_preferences w /\
  preferences_seq w' = preferences_seq w /\
  now w' = now w /\
  server w' = server w /\
  (exists rows, nutrition_logs w' = nutrition_logs w ++ rows /\ (length rows <= r)%nat) /\
  (exists new, sent w' = sent w ++ new /\ (length new <= n)%nat /\
               forallb (well_addressed self) new = true).

Definition keeps (self : Config) (r n : nat) {A : Type} (m : py A) : Prop :=
  forall w, evolves self r n w (snd (m w)).

(** ** The daily summary of the food logger page

    The button [View Today's Log] of [show_food_logger_page] selects the
    rows of the user that were logged today and shows their total
    calories and their number.  The selection and the two metrics are
    modelled; the widgets and the percentage of the target, a float, are
    not. *)

(** [date(timestamp)] of SQLite on a text in the format of
    [CURRENT_TIMESTAMP]: its first ten characters. *)
Definition sql_date (timestamp : string) : string := str_take 10 timestamp.

(** The condition [user_id = ? AND date(timestamp) = date('now')]. *)
Definition logged_today (user_id : string) (w : world) (row : log_row) : bool :=
  match log_user_id row with
  | SqlText u => String.eqb u user_id
  | _ => false
  end && String.eqb (sql_date (log_timestamp row)) (sql_date (now w)).

(** The rows of the [SELECT].  They are given in the order of the log;
    [ORDER BY timestamp DESC] orders them otherwise, which changes
    neither their sum nor their number. *)
Definition todays_entries (user_id : string) (w : world) : list log_row :=
  List.filter (logged_today user_id w) (nutrition_logs w).

(** [sum(entry[1] for entry in entries)]: adding a calorie cell that is
    not a number raises, which is [None] here. *)
Fixpoint total_calories (entries : list log_row) : option Z :=
  match entries with
  | [] => Some 0
  | entry :: rest =>
      match log_calories entry, total_calories rest with
      | SqlInteger c, Some t => Some (c + t)
      | _, _ => None
      end
  end.

(** The two metrics shown, or [None] when there is no entry and the page
    says so. *)
Definition todays_metrics (user_id : string) : py (option (Z * nat)) :=
  w ← get_world;
  match todays_entries user_id w with
  | [] => mret None
  | entries =>
      match total_calories entries with
      | Some total => mret (Some (total, length entries))
      | None => raise (Exception "unsupported operand type(s) for +")
      end
  end.

(** ** More sample configurations and worlds *)

Definition chat_only : Config := {| mistral_api_key := "mistral-key"; exa_api_key := "" |}.

(** The chat endpoint answers with five lines, one of them blank. *)
Definition three_lines_chat : world :=
  World ∅ 0 [] "2025-01-01 00:00:00"
    (fun _ _ => Answered (Response 200 ""
       (ChatCompletion (lines ["vegan food Pune"; ""; "  healthy cafes Pune  ";
                               "Pune salad bars"; "Pune juice bars"])))) [].

(** The chat endpoint answers with the JSON object of an apple. *)
Definition apple_chat : world :=
  World ∅ 0 [] "2025-01-01 00:00:00"
    (fun _ _ => Answered (Response 200 ""
       (ChatCompletion
          (Json.dumps (PDict [("food_item", PStr "apple"); ("calories", PInt 95)])))))
    [].

(** A store with a row whose first encoded column is not JSON. *)
Definition broken_row_world : world :=
  World {[ "u1" := {[ "user_id" := SqlText "u1";
                      "dietary_restrictions" := SqlText "[Vegan";
                      "health_goals" := SqlText "{}" ]} ]}
        1 [] "2025-01-01 00:00:00" (fun _ _ => Unreachable "connection refused") [].

(** ** Auxiliary notions for the statements *)

(** The part of [_generate_smart_search_queries] before the fallback:
    the queries read from the chat answer, if any. *)
Definition ai_queries (self : Config) (location : string) (user_prefs : pydict)
    (cuisine : string) : py (option (list string)) :=
  if truthy (mistral_api_key self) then
    try_except
      (response ← requests_post
         (Request mistral_url (mistral_api_key self) 20
            (MistralChat (SearchQueriesFor location cuisine user_prefs) 300));
       if status_code response =? 200 then
         result ← response_json response;
         content ← chat_content result;
         let queries :=
           filter (fun q => truthy q = true) (map strip (split newline content)) in
         if (3 <=? length queries)%nat then mret (Some (firstn 3 queries))
         else mret None
       else mret None)
      (fun e => mret None)
  else mret None.

(** The values that the driver can bind. *)
Definition is_scalar (v : pyval) : bool :=
  match v with PList _ | PDict _ => false | _ => true end.

(** The world after a row for this food is appended to the log. *)
Definition logged (user_id : string) (food_item calories : pyval) (w : world) : world :=
  snd (insert_log (SqlText user_id) (sql_cell food_item) (sql_cell calories) w).

(* ===================================================================== *)
(** * Facts about the string primitives *)
(* ===================================================================== *)

Section StringFacts.

Lemma truthy_true (s : string) : truthy s = true <-> s <> "".
Proof. destruct s; simpl; split; intros; congruence. Qed.

Lemma title_go_truthy (s : string) (prev : bool) :
  truthy (title_go s prev) = truthy s.
Proof. destruct s; reflexivity. Qed.

Lemma title_truthy (s : string) : truthy (title s) = truthy s.
Proof. apply title_go_truthy. Qed.

Lemma join_truthy (sep w : string) (ws : list string) :
  truthy w = true -> truthy (join sep (w :: ws)) = true.
Proof.
  destruct w as [|c w]; [discriminate|]. intros _.
  unfold join. simpl. destruct ws; reflexivity.
Qed.

Lemma take_location_words_head (ws : list string) (w : string) (r : list string) :
  take_location_words ws = w :: r -> truthy w = true.
Proof.
  destruct ws as [|x xs]; simpl; [discriminate|].
  destruct (truthy (strip_chars ".,!?" x)) eqn:E; simpl; [|discriminate].
  destruct (istitle _ || _); [|discriminate].
  intros [= <- _]. exact E.
Qed.

Lemma location_after_truthy (indicator q l : string) :
  location_after indicator q = Some l -> truthy l = true.
Proof.
  unfold location_after.
  destruct (contains indicator q); [|discriminate].
  destruct (1 <? _)%nat; [|discriminate].
  destruct (take_location_words _) as [|w r] eqn:E; [discriminate|].
  intros [= <-]. rewrite title_truthy.
  apply join_truthy. eapply take_location_words_head; eassumption.
Qed.

Lemma strategy_indicator_truthy (indicators : list string) (q l : string) :
  strategy_indicator indicators q = Some l -> truthy l = true.
Proof.
  induction indicators as [|i r IH]; simpl; [discriminate|].
  destruct (location_after i q) eqn:E.
  - intros [= <-]. eapply location_after_truthy; eassumption.
  - exact IH.
Qed.

Lemma strategy_places_truthy (places : list string) (q l : string) :
  forallb truthy places = true ->
  strategy_places places q = Some l -> truthy l = true.
Proof.
  induction places as [|p r IH]; simpl; [discriminate|].
  intros [Hp Hr]%andb_prop.
  destruct (contains p q).
  - intros [= <-]. rewrite title_truthy. exact Hp.
  - apply IH, Hr.
Qed.

End StringFacts.

(* ===================================================================== *)
(** * Location extraction (C4) *)
(* ===================================================================== *)

(** C4.  In [detect_restaurant_query] the three location strategies are
    tried in the order indicator, known place, capitalised words.  For
    every query that is taken for a restaurant query: a location found
    after an indicator is never empty and is the one returned; when no
    indicator gives a location, a known place found in the query is the
    one returned; the capitalised words are used only when both earlier
    strategies found nothing. *)
Theorem location_strategies_in_order (query : string) :
  is_restaurant_query query = true ->
  (forall l, strategy_indicator location_indicators (lower query) = Some l ->
             l <> "" /\ detect_restaurant_query query = Some l) /\
  (strategy_indicator location_indicators (lower query) = None ->
   forall l, strategy_places common_places (lower query) = Some l ->
             l <> "" /\ detect_restaurant_query query = Some l) /\
  (strategy_indicator location_indicators (lower query) = None ->
   strategy_places common_places (lower query) = None ->
   detect_restaurant_query query = strategy_capitalized query).
Proof.
  unfold is_restaurant_query, detect_restaurant_query. intros ->.
  cbv zeta. repeat split.
  - apply truthy_true. eapply strategy_indicator_truthy; eassumption.
  - pose proof (strategy_indicator_truthy _ _ _ H) as Ht.
    rewrite H. repeat (cbn [truthy_opt negb]; rewrite ?Ht). reflexivity.
  - apply truthy_true. eapply strategy_places_truthy; [|eassumption]. reflexivity.
  - pose proof (strategy_places_truthy common_places _ _ eq_refl H0) as Ht.
    rewrite H. cbn [truthy_opt negb]. rewrite H0.
    repeat (cbn [truthy_opt negb]; rewrite ?Ht). reflexivity.
  - intros H1 H2. rewrite H1. cbn [truthy_opt negb]. rewrite H2.
    cbn [truthy_opt negb].
    unfold strategy_capitalized. destruct (CapRun.findall query); reflexivity.
Qed.

(** A query with no indicator, in which the known place [pune] occurs
    and whose longest capitalised run is another text: the known place
    is returned. *)
Lemma location_strategies_in_order_witness :
  strategy_capitalized "Best restaurant Koregaon Park Pune" = Some "Koregaon Park Pune" /\
  detect_restaurant_query "Best restaurant Koregaon Park Pune" = Some "Pune".
Proof.
  split; [reflexivity|].
  apply (proj1 (proj2 (location_strategies_in_order
                         "Best restaurant Koregaon Park Pune" eq_refl))
               eq_refl "Pune" eq_refl).
Defined.

(* ===================================================================== *)
(** * Facts about computations *)
(* ===================================================================== *)

Section Computations.
Context {A B : Type}.

Lemma bind_returned (m : py A) (f : A -> py B) (w w' : world) (a : A) :
  m w = (Returned a, w') -> (m ≫= f) w = f a w'.
Proof. unfold mbind, py_bind. intros ->. reflexivity. Qed.

Lemma bind_raised (m : py A) (f : A -> py B) (w w' : world) (e : exn) :
  m w = (Raised e, w') -> (m ≫= f) w = (Raised e, w').
Proof. unfold mbind, py_bind. intros ->. reflexivity. Qed.

Lemma try_except_returned (m : py A) (h : exn -> py A) (w w' : world) (a : A) :
  m w = (Returned a, w') -> try_except m h w = (Returned a, w').
Proof. unfold try_except. intros ->. reflexivity. Qed.

Lemma try_except_raised (m : py A) (h : exn -> py A) (w w' : world) (e : exn) :
  m w = (Raised e, w') -> try_except m h w = h e w'.
Proof. unfold try_except. intros ->. reflexivity. Qed.

Lemma try_except_safe (m : py A) (h : exn -> A) :
  safe (try_except m (fun e => mret (h e))).
Proof.
  intros w. unfold try_except.
  destruct (m w) as [[a|e] w']; eauto.
Qed.

Lemma safe_of_silent (m : py A) (w : world) :
  safe m -> silent m -> exists a, m w = (Returned a, w).
Proof.
  intros Hs Hq. destruct (Hs w) as (a & w' & E).
  specialize (Hq w). rewrite E in Hq. simpl in Hq. subst w'. eauto.
Qed.

Lemma silent_ret (a : A) : silent (mret a : py A).
Proof. intros w. reflexivity. Qed.

Lemma silent_raise (e : exn) : silent (raise e : py A).
Proof. intros w. reflexivity. Qed.

Lemma silent_bind (m : py A) (f : A -> py B) :
  silent m -> (forall a, silent (f a)) -> silent (m ≫= f).
Proof.
  intros Hm Hf w. unfold mbind, py_bind.
  specialize (Hm w). destruct (m w) as [[a|e] w']; simpl in Hm; subst w'.
  - apply Hf.
  - reflexivity.
Qed.

Lemma silent_try_except (m : py A) (h : exn -> py A) :
  silent m -> (forall e, silent (h e)) -> silent (try_except m h).
Proof.
  intros Hm Hh w. unfold try_except.
  specialize (Hm w). destruct (m w) as [[a|e] w']; simpl in Hm; subst w'.
  - reflexivity.
  - apply Hh.
Qed.

Lemma silent_try_except_json (m h : py A) :
  silent m -> silent h -> silent (try_except_json m h).
Proof.
  intros Hm Hh w. unfold try_except_json.
  specialize (Hm w). destruct (m w) as [[a|[msg|msg]] w']; simpl in Hm; subst w';
    try reflexivity.
  apply Hh.
Qed.

Lemma silent_if (b : bool) (m1 m2 : py A) :
  silent m1 -> silent m2 -> silent (if b then m1 else m2).
Proof. destruct b; auto. Qed.

End Computations.

#[local] Hint Resolve silent_ret silent_raise silent_bind silent_try_except
  silent_try_except_json silent_if : py_silent.

Ltac silent_tac :=
  repeat first
    [ apply silent_ret | apply silent_raise
    | apply silent_bind; [|intros ?]
    | apply silent_try_except; [|intros ?]
    | apply silent_try_except_json
    | apply silent_if
    | match goal with |- silent (match ?x with _ => _ end) => destruct x end
    | match goal with |- silent (let '(_, _) := ?x in _) => destruct x end
    | solve [auto with py_silent] ].

Section StoreFacts.

Lemma silent_sql_bind (v : pyval) : silent (sql_bind v).
Proof. destruct v; silent_tac. Qed.

Lemma silent_json_loads (v : pyval) : silent (json_loads v).
Proof. unfold json_loads. silent_tac. Qed.

Lemma silent_parse_json_fields (fields : list (string * string)) (preferences : pydict) :
  silent (parse_json_fields fields preferences).
Proof.
  revert preferences. induction fields as [|[k d] r IH]; intros preferences; simpl.
  - silent_tac.
  - apply silent_try_except_json; [|silent_tac].
    apply silent_bind; [apply silent_json_loads|]. intros v. apply IH.
Qed.

Lemma silent_get_user_preferences (user_id : string) :
  silent (get_user_preferences user_id).
Proof.
  unfold get_user_preferences. apply silent_try_except; [|intros; silent_tac].
  apply silent_bind; [intros w; reflexivity|].
  intros [row|]; [apply silent_parse_json_fields|silent_tac].
Qed.

Lemma safe_get_user_preferences (user_id : string) :
  safe (get_user_preferences user_id).
Proof. apply (try_except_safe _ (fun _ => ∅)). Qed.

Lemma silent_load_user_prefs (user_id : option string) :
  silent (load_user_prefs user_id).
Proof.
  unfold load_user_prefs. apply silent_if;
    [apply silent_get_user_preferences|silent_tac].
Qed.

Lemma safe_load_user_prefs (user_id : option string) :
  safe (load_user_prefs user_id).
Proof.
  unfold load_user_prefs. destruct (truthy_opt user_id).
  - apply safe_get_user_preferences.
  - intros w. eexists _, _. reflexivity.
Qed.

(** Reading the profile returns a dictionary and changes nothing. *)
Lemma load_user_prefs_returns (user_id : option string) (w : world) :
  exists user_prefs, load_user_prefs user_id w = (Returned user_prefs, w).
Proof.
  apply safe_of_silent; [apply safe_load_user_prefs|apply silent_load_user_prefs].
Qed.

End StoreFacts.

#[local] Hint Resolve silent_sql_bind silent_json_loads silent_parse_json_fields
  silent_get_user_preferences silent_load_user_prefs : py_silent.

(* ===================================================================== *)
(** * Query composer (C8) *)
(* ===================================================================== *)

Section ComposerFacts.

Lemma silent_py_iter (v : pyval) : silent (py_iter v).
Proof. destruct v; silent_tac. Qed.

Lemma silent_py_lower (v : pyval) : silent (py_lower v).
Proof. destruct v; silent_tac. Qed.

Lemma silent_py_dict_get (v : pyval) (key : string) : silent (py_dict_get v key).
Proof. destruct v; silent_tac. Qed.

Lemma silent_collect_dietary_terms (restrictions : list pyval) :
  silent (collect_dietary_terms restrictions).
Proof.
  induction restrictions as [|x r IH]; simpl; [silent_tac|].
  apply silent_bind; [apply silent_py_lower|]. intros s.
  apply silent_bind; [apply IH|]. intros t. silent_tac.
Qed.

(** The rule-based composer reads nothing but its arguments. *)
Lemma silent_generate_fallback_queries (location : string) (user_prefs : pydict)
    (cuisine : string) :
  silent (_generate_fallback_queries location user_prefs cuisine).
Proof.
  unfold _generate_fallback_queries.
  apply silent_bind.
  { apply silent_if; [|silent_tac].
    apply silent_bind; [apply silent_py_iter|]. intros l.
    apply silent_collect_dietary_terms. }
  intros dt. apply silent_bind.
  { apply silent_if; [|silent_tac].
    apply silent_bind; [apply silent_py_dict_get|]. intros a.
    apply silent_bind; [apply silent_py_dict_get|]. intros b. silent_tac. }
  intros ht. silent_tac.
Qed.

(** Without the chat credential the composer is the rule-based one. *)
Lemma smart_queries_without_key (self : Config) (location : string)
    (user_prefs : pydict) (cuisine : string) (w : world) :
  mistral_api_key self = "" ->
  _generate_smart_search_queries self location user_prefs cuisine w =
  _generate_fallback_queries location user_prefs cuisine w.
Proof.
  intros Hk. unfold _generate_smart_search_queries. rewrite Hk. reflexivity.
Qed.

End ComposerFacts.

#[local] Hint Resolve silent_py_iter silent_py_lower silent_py_dict_get
  silent_collect_dietary_terms silent_generate_fallback_queries : py_silent.

(** C8.  With the chat credential absent, composing the queries for the
    location Pune, the single dietary restriction Vegan and no cuisine
    gives, in any two worlds, the same three queries, which follow the
    template: best, dietary terms, cuisine or the word restaurants, in,
    location; health terms or the word good, restaurants, location,
    reviews; location, restaurants, first dietary term, zomato swiggy.
    Neither call changes the world. *)
Theorem fallback_composer_deterministic (self : Config) (w1 w2 : world) :
  mistral_api_key self = "" ->
  _generate_smart_search_queries self "Pune" vegan_prefs "" w1 =
    (Returned pune_vegan_queries, w1) /\
  _generate_smart_search_queries self "Pune" vegan_prefs "" w2 =
    (Returned pune_vegan_queries, w2) /\
  _generate_fallback_queries "Pune" vegan_prefs "" w1 = (Returned pune_vegan_queries, w1) /\
  _generate_fallback_queries "Pune" vegan_prefs "" w2 = (Returned pune_vegan_queries, w2) /\
  length pune_vegan_queries = 3%nat /\
  pune_vegan_queries =
    ["best " +:+ "vegan" +:+ " " +:+ "restaurants" +:+ " in " +:+ "Pune";
     "good" +:+ " restaurants " +:+ "Pune" +:+ " reviews";
     "Pune" +:+ " restaurants" +:+ " " +:+ "vegan" +:+ " zomato swiggy"].
Proof.
  intros Hk. rewrite !(smart_queries_without_key self) by exact Hk.
  repeat split; reflexivity.
Qed.

Lemma fallback_composer_deterministic_witness :
  fst (_generate_smart_search_queries no_keys "Pune" vegan_prefs "" offline) =
  fst (_generate_smart_search_queries no_keys "Pune" vegan_prefs "" search_only).
Proof.
  pose proof (fallback_composer_deterministic no_keys offline search_only eq_refl)
    as (E1 & E2 & _).
  rewrite E1, E2. reflexivity.
Defined.

(* ===================================================================== *)
(** * Query router (C1, C5, C7) *)
(* ===================================================================== *)

Section RouterFacts.

Lemma safe_handle_food_logging_request (self : Config) (query : string)
    (user_id : option string) (user_prefs : pydict) :
  safe (_handle_food_logging_request self query user_id user_prefs).
Proof.
  apply (try_except_safe _ (fun e => "❌ Error logging food: " +:+ exn_str e)).
Qed.

Lemma safe_process_nutrition_query (self : Config) (query : string)
    (user_id : option string) :
  safe (process_nutrition_query self query user_id).
Proof.
  apply (try_except_safe _
    (fun e => "⚠️ Sorry, I encountered an error processing your query: " +:+ exn_str e)).
Qed.

Lemma workout_plan_without_key (self : Config) (user_prefs : pydict)
    (query : string) (w : world) :
  mistral_api_key self = "" ->
  generate_workout_plan self user_prefs query w =
  (Raised (Exception workout_key_message), w).
Proof. intros Hk. unfold generate_workout_plan. rewrite Hk. reflexivity. Qed.

Lemma nutrition_advice_without_key (self : Config) (query : string)
    (user_prefs : pydict) (w : world) :
  mistral_api_key self = "" ->
  _get_ai_nutrition_advice self query user_prefs w = (Returned advice_key_message, w).
Proof. intros Hk. unfold _get_ai_nutrition_advice. rewrite Hk. reflexivity. Qed.

Lemma search_restaurants_without_key (self : Config) (location cuisine : string)
    (user_id : option string) (w : world) :
  exa_api_key self = "" ->
  search_restaurants self location cuisine user_id w =
  (Returned {[ "error" := FText exa_key_message ]}, w).
Proof. intros Hk. unfold search_restaurants. rewrite Hk. reflexivity. Qed.

End RouterFacts.

(** C1, as amended.  A query that passes [validate_input] and contains a
    food-logging keyword is handed to the food-logging handler, also
    when it contains a restaurant keyword: the food-logging test comes
    before restaurant detection. *)
Theorem food_logging_before_restaurant (self : Config) (query : string)
    (user_id : option string) (w : world) :
  validate_input query = true ->
  any_in food_logging_keywords (lower query) = true ->
  any_in restaurant_keywords (lower query) = true ->
  routes_to_food_logging self query user_id w.
Proof.
  intros Hv Hf _.
  destruct (load_user_prefs_returns user_id w) as [user_prefs Hl].
  exists user_prefs, w. split; [exact Hl|].
  destruct (safe_handle_food_logging_request self query user_id user_prefs w)
    as (s & w' & Hh).
  unfold process_nutrition_query. rewrite Hv. cbn [negb].
  rewrite Hh. apply try_except_returned.
  rewrite (bind_returned _ _ _ _ _ Hl).
  unfold _is_food_logging_request. cbv zeta. rewrite Hf. exact Hh.
Qed.

Lemma food_logging_before_restaurant_witness :
  routes_to_food_logging no_keys "I had dinner at a restaurant" (Some "u1") search_only.
Proof.
  apply food_logging_before_restaurant; reflexivity.
Defined.

(** C1 as stated fails: this query contains the food-logging keyword
    [ate] and the restaurant keyword [restaurant], yet the router rejects
    it as invalid input and sends nothing, whereas the food-logging
    handler would have sent a request. *)
Lemma food_logging_priority_counterexample :
  any_in food_logging_keywords (lower "I ate spam at a restaurant") = true /\
  any_in restaurant_keywords (lower "I ate spam at a restaurant") = true /\
  process_nutrition_query no_keys "I ate spam at a restaurant" (Some "u1") offline =
    (Returned "Invalid input. Please provide a valid nutrition question.", offline) /\
  ~ routes_to_food_logging no_keys "I ate spam at a restaurant" (Some "u1") offline.
Proof.
  split; [reflexivity|]. split; [reflexivity|]. split; [reflexivity|].
  intros (user_prefs & w1 & Hl & Hp).
  assert (Hw : w1 = offline /\ user_prefs = ∅).
  { vm_compute in Hl. injection Hl as <- <-. split; reflexivity. }
  destruct Hw as [-> ->].
  apply (f_equal (fun r => length (sent (snd r)))) in Hp.
  vm_compute in Hp. discriminate.
Qed.

(** C7, as amended.  With the chat credential absent,
    [generate_workout_plan] raises, sending nothing and returning no
    text; the router catches the exception: a valid query that reaches
    the workout branch is answered with the apology that quotes the
    exception, and no call of the router raises. *)
Theorem workout_fault_is_caught (self : Config) (query : string)
    (user_id : option string) (w : world) :
  mistral_api_key self = "" ->
  (forall user_prefs,
     generate_workout_plan self user_prefs query w =
     (Raised (Exception workout_key_message), w)) /\
  (validate_input query = true ->
   _is_food_logging_request query = false ->
   truthy_opt (detect_restaurant_query query) = false ->
   any_in workout_keywords (lower query) = true ->
   process_nutrition_query self query user_id w =
   (Returned ("⚠️ Sorry, I encountered an error processing your query: " +:+
              workout_key_message), w)) /\
  safe (process_nutrition_query self query user_id).
Proof.
  intros Hk. split; [|split].
  - intros user_prefs. apply workout_plan_without_key, Hk.
  - intros Hv Hf Hr Hw.
    destruct (load_user_prefs_returns user_id w) as [user_prefs Hl].
    unfold process_nutrition_query. rewrite Hv. cbn [negb].
    rewrite (try_except_raised _ _ w w (Exception workout_key_message));
      [reflexivity|].
    rewrite (bind_returned _ _ _ _ _ Hl).
    rewrite Hf. cbv zeta. rewrite Hr, Hw.
    apply workout_plan_without_key, Hk.
  - apply safe_process_nutrition_query.
Qed.

Lemma workout_fault_is_caught_witness :
  process_nutrition_query no_keys "Plan my gym workout" (Some "u1") search_only =
  (Returned ("⚠️ Sorry, I encountered an error processing your query: " +:+
             workout_key_message), search_only).
Proof.
  apply (proj1 (proj2 (workout_fault_is_caught no_keys "Plan my gym workout"
                         (Some "u1") search_only eq_refl)));
    reflexivity.
Defined.

(** C7 as stated fails: with no chat credential the workout query makes
    [generate_workout_plan] raise, but the router returns a text; no
    exception leaves it. *)
Lemma workout_fault_propagates_counterexample :
  mistral_api_key no_keys = "" /\
  generate_workout_plan no_keys ∅ "Plan my gym workout" offline =
    (Raised (Exception workout_key_message), offline) /\
  process_nutrition_query no_keys "Plan my gym workout" None offline =
    (Returned ("⚠️ Sorry, I encountered an error processing your query: " +:+
               workout_key_message), offline) /\
  ~ (exists e w', process_nutrition_query no_keys "Plan my gym workout" None offline =
                  (Raised e, w')).
Proof.
  split; [reflexivity|]. split; [reflexivity|]. split; [reflexivity|].
  intros (e & w' & H). vm_compute in H. discriminate.
Qed.

Section CredentialFacts.

Lemma recommendations_without_key (self : Config) (results : list result)
    (location : string) (user_prefs : pydict) (w : world) :
  mistral_api_key self = "" ->
  exists s, _generate_ai_restaurant_recommendations self results location user_prefs w =
            (Returned s, w).
Proof.
  intros Hk. unfold _generate_ai_restaurant_recommendations. rewrite Hk.
  eexists. reflexivity.
Qed.

End CredentialFacts.




(* ===================================================================== *)
(** * Search aggregator (C2, C3, C6, C10) *)
(* ===================================================================== *)

Section DedupFacts.

Implicit Types (l : list result) (seen : gset string) (r : result).

Lemma dedup_pass_cons l seen r :
  dedup_pass (r :: l) seen =
  if truthy (result_url r) && negb (bool_decide (result_url r ∈ seen))
  then r :: dedup_pass l ({[result_url r]} ∪ seen)
  else dedup_pass l seen.
Proof. reflexivity. Qed.

Lemma dedup_pass_sublist l seen : sublist (dedup_pass l seen) l.
Proof.
  revert seen. induction l as [|r l IH]; intros seen; [constructor|].
  rewrite dedup_pass_cons. destruct (_ && _).
  - apply sublist_skip, IH.
  - apply sublist_cons, IH.
Qed.

(** What is kept has a URL, and one that was not seen before. *)
Lemma dedup_pass_elem l seen r :
  r ∈ dedup_pass l seen -> result_url r <> "" /\ result_url r ∉ seen.
Proof.
  revert seen. induction l as [|x l IH]; intros seen; [intros H; inversion H|].
  rewrite dedup_pass_cons.
  destruct (truthy (result_url x)) eqn:Et; cbn [andb].
  - destruct (bool_decide (result_url x ∈ seen)) eqn:Es; cbn [negb].
    + apply IH.
    + apply bool_decide_eq_false in Es.
      intros [->|Hin]%elem_of_cons.
      * split; [apply truthy_true, Et|exact Es].
      * apply IH in Hin as [? Hn]. split; [assumption|].
        contradict Hn. apply elem_of_union_r, Hn.
  - apply IH.
Qed.

Lemma dedup_pass_NoDup l seen : NoDup (result_url <$> dedup_pass l seen).
Proof.
  revert seen. induction l as [|x l IH]; intros seen; [constructor|].
  rewrite dedup_pass_cons. destruct (_ && _); [|apply IH].
  rewrite fmap_cons. constructor; [|apply IH].
  intros (r & Hr & Hin)%list_elem_of_fmap.
  apply dedup_pass_elem in Hin as [_ Hn].
  apply Hn, elem_of_union_l, elem_of_singleton. symmetry. exact Hr.
Qed.

(** Every URL that is not empty and was not seen before is kept. *)
Lemma dedup_pass_covers l seen r :
  r ∈ l -> result_url r <> "" -> result_url r ∉ seen ->
  result_url r ∈ result_url <$> dedup_pass l seen.
Proof.
  revert seen. induction l as [|x l IH]; intros seen Hin Hne Hns; [inversion Hin|].
  rewrite dedup_pass_cons.
  destruct (truthy (result_url x)) eqn:Et; cbn [andb].
  - destruct (bool_decide (result_url x ∈ seen)) eqn:Es; cbn [negb].
    + apply bool_decide_eq_true in Es.
      apply elem_of_cons in Hin as [->|Hin]; [contradiction|].
      apply IH; assumption.
    + rewrite fmap_cons.
      destruct (decide (result_url r = result_url x)) as [->|Hd]; [apply list_elem_of_here|].
      apply list_elem_of_further.
      apply elem_of_cons in Hin as [->|Hin]; [contradiction|].
      apply IH; [assumption|assumption|].
      intros [?%elem_of_singleton|?]%elem_of_union; contradiction.
  - apply elem_of_cons in Hin as [->|Hin].
    + apply truthy_true in Hne. congruence.
    + apply IH; assumption.
Qed.

(** What is kept is the first result with its URL. *)
Lemma dedup_pass_first l seen r :
  r ∈ dedup_pass l seen ->
  exists pre post, l = pre ++ r :: post /\
                   forall r', r' ∈ pre -> result_url r' <> result_url r.
Proof.
  revert seen. induction l as [|x l IH]; intros seen; [intros H; inversion H|].
  rewrite dedup_pass_cons.
  destruct (truthy (result_url x) && negb (bool_decide (result_url x ∈ seen))) eqn:E.
  - intros [->|Hin]%elem_of_cons.
    + exists [], l. split; [reflexivity|]. intros r' H; inversion H.
    + pose proof (dedup_pass_elem _ _ _ Hin) as [_ Hn].
      apply IH in Hin as (pre & post & -> & Hpre).
      exists (x :: pre), post. split; [reflexivity|].
      intros r' [->|H']%elem_of_cons; [|auto].
      intros Heq. apply Hn, elem_of_union_l, elem_of_singleton. symmetry. exact Heq.
  - intros Hin. pose proof (dedup_pass_elem _ _ _ Hin) as [Hne Hn].
    apply IH in Hin as (pre & post & -> & Hpre).
    exists (x :: pre), post. split; [reflexivity|].
    intros r' [->|H']%elem_of_cons; [|auto].
    intros Heq. rewrite Heq in E.
    apply truthy_true in Hne. rewrite Hne in E. cbn [andb] in E.
    apply negb_false_iff, bool_decide_eq_true in E. contradiction.
Qed.

(** A result without a usable URL leaves no trace in the pass. *)
Lemma dedup_pass_skip l1 l2 seen r :
  result_url r = "" ->
  dedup_pass (l1 ++ r :: l2) seen = dedup_pass (l1 ++ l2) seen.
Proof.
  intros Hr. revert seen. induction l1 as [|x l1 IH]; intros seen.
  - cbn [app]. rewrite dedup_pass_cons, Hr. reflexivity.
  - cbn [app]. rewrite !dedup_pass_cons. destruct (_ && _); rewrite IH; reflexivity.
Qed.

Lemma result_url_absent r :
  r !! "url" = None \/ r !! "url" = Some "" -> result_url r = "".
Proof. unfold result_url. intros [-> | ->]; reflexivity. Qed.

Lemma post_pass_results qs l n :
  search_post_pass qs l n !! "results" = Some (FResults (firstn 8 (unique_results_of l))).
Proof. unfold search_post_pass. destruct (unique_results_of l); reflexivity. Qed.

Lemma post_pass_total_found qs l n :
  search_post_pass qs l n !! "total_found" = Some (FCount (length (unique_results_of l))).
Proof. unfold search_post_pass. destruct (unique_results_of l); reflexivity. Qed.

Lemma post_pass_no_error qs l n : search_post_pass qs l n !! "error" = None.
Proof. unfold search_post_pass. destruct (unique_results_of l); reflexivity. Qed.

Lemma post_pass_debug_info qs l n :
  exists txt, search_post_pass qs l n !! "debug_info" = Some (FText txt).
Proof. unfold search_post_pass. destruct (unique_results_of l); eexists; reflexivity. Qed.

(** The positions of the results that the pass keeps: they increase, the
    pass returns the results at these positions, and a position is kept
    exactly when its URL is usable, was not seen before the pass and
    occurs at no earlier position. *)
Lemma dedup_pass_positions l seen :
  exists positions : list nat,
    (forall a b i j, positions !! a = Some i -> positions !! b = Some j ->
                     (a < b)%nat -> (i < j)%nat) /\
    Forall2 (fun i r => l !! i = Some r) positions (dedup_pass l seen) /\
    (forall i, i ∈ positions <->
       exists r, l !! i = Some r /\ result_url r <> "" /\ (result_url r ∉ seen) /\
                 forall j r', (j < i)%nat -> l !! j = Some r' ->
                              result_url r' <> result_url r).
Proof.
  revert seen. induction l as [|x l IH]; intros seen.
  - exists []. split; [|split].
    + intros a b i j H. rewrite lookup_nil in H. discriminate.
    + constructor.
    + intros i. split.
      * intros H. inversion H.
      * intros (r & H & _). rewrite lookup_nil in H. discriminate.
  - rewrite dedup_pass_cons.
    destruct (truthy (result_url x) && negb (bool_decide (result_url x ∈ seen))) eqn:E.
    + apply andb_true_iff in E as [Et Es].
      apply truthy_true in Et. apply negb_true_iff, bool_decide_eq_false in Es.
      destruct (IH ({[result_url x]} ∪ seen)) as (ps & Hinc & Hat & Hiff).
      exists (0%nat :: (S <$> ps)). split; [|split].
      * intros [|a] [|b] i j Ha Hb Hab; try lia.
        -- injection Ha as <-. change ((S <$> ps) !! b = Some j) in Hb.
           rewrite list_lookup_fmap in Hb.
           destruct (ps !! b); cbn in Hb; [injection Hb as <-; lia|discriminate].
        -- change ((S <$> ps) !! a = Some i) in Ha.
           change ((S <$> ps) !! b = Some j) in Hb.
           rewrite list_lookup_fmap in Ha, Hb.
           destruct (ps !! a) as [i'|] eqn:Ea; cbn in Ha; [injection Ha as <-|discriminate].
           destruct (ps !! b) as [j'|] eqn:Eb; cbn in Hb; [injection Hb as <-|discriminate].
           pose proof (Hinc a b i' j' Ea Eb). lia.
      * constructor; [reflexivity|].
        apply Forall2_fmap_l. exact Hat.
      * intros [|i].
        -- split.
           ++ intros _. exists x. split; [reflexivity|]. split; [exact Et|]. split; [exact Es|].
              intros j r' Hj. lia.
           ++ intros _. apply list_elem_of_here.
        -- split.
           ++ intros [Hc|Hin]%elem_of_cons; [discriminate|].
              apply list_elem_of_fmap in Hin as (i' & [= <-] & Hin).
              apply Hiff in Hin as (r & Hr & Hne & Hns & Hfirst).
              exists r. split; [exact Hr|]. split; [exact Hne|]. split.
              ** contradict Hns. apply elem_of_union_r, Hns.
              ** intros [|j] r' Hj Hr'; cbn in Hr'.
                 --- injection Hr' as <-. contradict Hns.
                     apply elem_of_union_l, elem_of_singleton. symmetry. exact Hns.
                 --- apply (Hfirst j); [lia|exact Hr'].
           ++ intros (r & Hr & Hne & Hns & Hfirst). cbn in Hr.
              apply list_elem_of_further, list_elem_of_fmap. exists i. split; [reflexivity|].
              apply Hiff. exists r. split; [exact Hr|]. split; [exact Hne|]. split.
              ** intros [Hx%elem_of_singleton|Hs]%elem_of_union; [|contradiction].
                 apply (Hfirst 0%nat x); [lia|reflexivity|]. symmetry. exact Hx.
              ** intros j r' Hj Hr'. apply (Hfirst (S j)); [lia|exact Hr'].
    + destruct (IH seen) as (ps & Hinc & Hat & Hiff).
      assert (Hx : result_url x = "" \/ result_url x ∈ seen).
      { apply andb_false_iff in E as [Et|Es].
        - left. destruct (result_url x); [reflexivity|discriminate].
        - right. apply negb_false_iff, bool_decide_eq_true in Es. exact Es. }
      exists (S <$> ps). split; [|split].
      * intros a b i j Ha Hb Hab. rewrite list_lookup_fmap in Ha, Hb.
        destruct (ps !! a) as [i'|] eqn:Ea; cbn in Ha; [injection Ha as <-|discriminate].
        destruct (ps !! b) as [j'|] eqn:Eb; cbn in Hb; [injection Hb as <-|discriminate].
        pose proof (Hinc a b i' j' Ea Eb). lia.
      * apply Forall2_fmap_l. exact Hat.
      * intros [|i].
        -- split.
           ++ intros Hin. apply list_elem_of_fmap in Hin as (i' & [=] & _).
           ++ intros (r & [= <-] & Hne & Hns & _). destruct Hx; contradiction.
        -- split.
           ++ intros Hin. apply list_elem_of_fmap in Hin as (i' & [= <-] & Hin).
              apply Hiff in Hin as (r & Hr & Hne & Hns & Hfirst).
              exists r. split; [exact Hr|]. split; [exact Hne|]. split; [exact Hns|].
              intros [|j] r' Hj Hr'; cbn in Hr'.
              ** injection Hr' as <-. intros Heq. rewrite Heq in Hx.
                 destruct Hx; contradiction.
              ** apply (Hfirst j); [lia|exact Hr'].
           ++ intros (r & Hr & Hne & Hns & Hfirst). cbn in Hr.
              apply list_elem_of_fmap. exists i. split; [reflexivity|].
              apply Hiff. exists r. split; [exact Hr|]. split; [exact Hne|]. split; [exact Hns|].
              intros j r' Hj Hr'. apply (Hfirst (S j)); [lia|exact Hr'].
Qed.

End DedupFacts.

(** C2.  The pass after the query loop keeps, of the accumulated results
    and in their order, the first result of every URL that is not empty:
    the unique list is a subsequence of the accumulated list, no URL
    occurs twice in it, every URL of the accumulated list occurs in it,
    and each of its results is preceded in the accumulated list only by
    results with other URLs.  First-seen order, by positions: the unique
    list is the list of the results found at increasing positions of the
    accumulated list, and these positions are exactly those that hold
    the first occurrence of a URL that is not empty.  The returned
    [results] are its first 8 entries and [total_found] is its length
    before this cut. *)
Theorem dedup_keeps_first_of_each_url (search_queries : list string)
    (all_results : list result) (successful_queries : nat) :
  let unique_results := unique_results_of all_results in
  let returned := search_post_pass search_queries all_results successful_queries in
  sublist unique_results all_results /\
  NoDup (result_url <$> unique_results) /\
  (forall r, r ∈ all_results -> result_url r <> "" ->
             result_url r ∈ result_url <$> unique_results) /\
  (forall r, r ∈ unique_results ->
     exists pre post, all_results = pre ++ r :: post /\
                      forall r', r' ∈ pre -> result_url r' <> result_url r) /\
  (exists positions : list nat,
     (forall a b i j, positions !! a = Some i -> positions !! b = Some j ->
                      (a < b)%nat -> (i < j)%nat) /\
     Forall2 (fun i r => all_results !! i = Some r) positions unique_results /\
     (forall i, i ∈ positions <->
        exists r, all_results !! i = Some r /\ result_url r <> "" /\
                  forall j r', (j < i)%nat -> all_results !! j = Some r' ->
                               result_url r' <> result_url r)) /\
  returned !! "results" = Some (FResults (firstn 8 unique_results)) /\
  returned !! "total_found" = Some (FCount (length unique_results)).
Proof.
  cbv zeta. unfold unique_results_of.
  split; [|split; [|split; [|split; [|split; [|split]]]]].
  - apply dedup_pass_sublist.
  - apply dedup_pass_NoDup.
  - intros r Hin Hne. apply dedup_pass_covers; [assumption|assumption|].
    apply not_elem_of_empty.
  - intros r. apply dedup_pass_first.
  - destruct (dedup_pass_positions all_results ∅) as (ps & Hinc & Hat & Hiff).
    exists ps. split; [exact Hinc|]. split; [exact Hat|].
    intros i. rewrite Hiff. split.
    + intros (r & Hr & Hne & _ & Hfirst). exists r. auto.
    + intros (r & Hr & Hne & Hfirst). exists r.
      split; [exact Hr|]. split; [exact Hne|]. split; [apply not_elem_of_empty|exact Hfirst].
  - apply post_pass_results.
  - apply post_pass_total_found.
Qed.

(** C10.  A result whose [url] is absent or empty is dropped by the
    pass: it is not in the unique list, the pass gives what it gives
    without this result, and so does the returned dictionary; when it is
    the only result, nothing is returned and [total_found] is 0. *)
Theorem results_without_url_are_dropped (search_queries : list string)
    (before after : list result) (r : result) (successful_queries : nat) :
  r !! "url" = None \/ r !! "url" = Some "" ->
  (r ∉ unique_results_of (before ++ r :: after)) /\
  unique_results_of (before ++ r :: after) = unique_results_of (before ++ after) /\
  search_post_pass search_queries (before ++ r :: after) successful_queries =
    search_post_pass search_queries (before ++ after) successful_queries /\
  unique_results_of [r] = [] /\
  search_post_pass search_queries [r] successful_queries !! "results" = Some (FResults []) /\
  search_post_pass search_queries [r] successful_queries !! "total_found" = Some (FCount 0).
Proof.
  intros Hr%result_url_absent.
  assert (Hskip : forall l1 l2, unique_results_of (l1 ++ r :: l2) = unique_results_of (l1 ++ l2)).
  { intros. apply dedup_pass_skip, Hr. }
  assert (Hone : unique_results_of [r] = []) by apply (Hskip [] []).
  split; [|split; [|split; [|split; [|split]]]].
  - intros [Hne _]%dedup_pass_elem. contradiction.
  - apply Hskip.
  - unfold search_post_pass. rewrite Hskip. reflexivity.
  - exact Hone.
  - rewrite post_pass_results, Hone. reflexivity.
  - rewrite post_pass_total_found, Hone. reflexivity.
Qed.

Lemma results_without_url_are_dropped_witness :
  unique_results_of (four_hits 0) =
  [hit "https://example.org/0/a" "A"; hit "https://example.org/0/b" "B";
   hit "https://example.org/same" "Same"].
Proof.
  pose proof (results_without_url_are_dropped [] 
                [hit "https://example.org/0/a" "A"; hit "https://example.org/0/b" "B";
                 hit "https://example.org/same" "Same"] [] (hit "" "Nameless") 0
                (or_intror eq_refl)) as (_ & E & _).
  etransitivity; [exact E|]. reflexivity.
Defined.

Section LoopFacts.

Variable self : Config.

(** One turn of the loop sends one request, never raises, and asks to
    stop exactly when it has brought the count to the quota. *)
Lemma search_step_returns (query : string) (acc : list result) (succ : nat) (w : world) :
  exists stop acc1 succ1,
    search_step self query acc succ w =
      (Returned (stop, acc1, succ1), record_request (search_request self query) w) /\
    (stop = true -> (10 <= length acc1)%nat) /\
    (stop = false -> (length acc < 10)%nat -> (length acc1 < 10)%nat).
Proof.
  unfold search_step, try_except, mbind, py_bind, requests_post. cbv zeta.
  destruct (server w (length (sent w)) (search_request self query)) as [msg|r].
  { exists false, acc, succ. repeat split; [discriminate|auto]. }
  destruct (status_code r =? 200).
  2:{ exists false, acc, succ. repeat split; [discriminate|auto]. }
  unfold response_json.
  destruct (json r) eqn:Ej;
    try (exists false, acc, succ; repeat split; [discriminate|auto]; fail);
    cbn [raise mret py_ret];
    match goal with
    | |- context [(10 <=? ?n)%nat] => destruct (10 <=? n)%nat eqn:El
    end;
    eexists _, _, _; (split; [reflexivity|]); split; intros; try discriminate;
    try (apply Nat.leb_le; assumption); try (apply Nat.leb_gt; assumption).
Qed.

(** The turn for a search that is answered with the hits [rs]. *)
Lemma search_step_answered (query txt : string) (rs acc : list result) (succ : nat)
    (w : world) :
  server w (length (sent w)) (search_request self query) =
    Answered (Response 200 txt (SearchResponse rs)) ->
  search_step self query acc succ w =
    (Returned ((10 <=? length (acc ++ rs))%nat, acc ++ rs, S succ),
     record_request (search_request self query) w).
Proof.
  intros Hs. unfold search_step, try_except, mbind, py_bind, requests_post.
  cbv zeta. rewrite Hs. cbn -[Nat.leb length app].
  destruct (10 <=? length (acc ++ rs))%nat; reflexivity.
Qed.

Lemma search_loop_cons (query : string) (rest : list string) (acc : list result)
    (succ : nat) (w : world) (stop : bool) (acc1 : list result) (succ1 : nat) (w1 : world) :
  search_step self query acc succ w = (Returned (stop, acc1, succ1), w1) ->
  search_loop self (query :: rest) acc succ w =
  if stop then (Returned (acc1, succ1), w1) else search_loop self rest acc1 succ1 w1.
Proof.
  intros Hs. cbn [search_loop]. rewrite (bind_returned _ _ _ _ _ Hs).
  destruct stop; reflexivity.
Qed.

(** Once the quota is reached the queries that remain are not sent:
    the loop over more queries ends as the loop over these. *)
Lemma search_loop_quota (q1 q2 : list string) (acc : list result) (succ : nat)
    (w : world) (acc' : list result) (succ' : nat) (w' : world) :
  (length acc < 10)%nat ->
  search_loop self q1 acc succ w = (Returned (acc', succ'), w') ->
  (10 <= length acc')%nat ->
  search_loop self (q1 ++ q2) acc succ w = (Returned (acc', succ'), w').
Proof.
  revert acc succ w. induction q1 as [|q q1 IH]; intros acc succ w Hlt Hrun Hge.
  - cbn in Hrun. injection Hrun as <- <- <-. lia.
  - destruct (search_step_returns q acc succ w)
      as (stop & acc1 & succ1 & Hs & Htrue & Hfalse).
    cbn [app]. rewrite (search_loop_cons _ _ _ _ _ _ _ _ _ Hs) in Hrun.
    rewrite (search_loop_cons _ _ _ _ _ _ _ _ _ Hs).
    destruct stop; [exact Hrun|].
    apply IH; [apply Hfalse; [reflexivity|exact Hlt]|exact Hrun|exact Hge].
Qed.

End LoopFacts.

(** C3.  In the query loop no query is sent once the accumulated count
    has reached 10: if the loop over some queries ends with 10 results
    or more, the loop over these queries followed by any others ends in
    the same way, in the same world.  When every search is answered
    with 4 results and there are at least 3 queries, the loop sends the
    first 3 queries and no other, and ends with 12 results from 3
    successful queries. *)
Theorem search_stops_at_quota (self : Config) (queries : list string) (w : world) :
  (forall q1 q2 acc' succ' w',
     queries = q1 ++ q2 ->
     search_loop self q1 [] 0 w = (Returned (acc', succ'), w') ->
     (10 <= length acc')%nat ->
     search_loop self queries [] 0 w = (Returned (acc', succ'), w')) /\
  ((forall n query, exists txt rs,
       server w n (search_request self query) =
         Answered (Response 200 txt (SearchResponse rs)) /\ length rs = 4%nat) ->
   (3 <= length queries)%nat ->
   exists all_results w',
     search_loop self queries [] 0 w = (Returned (all_results, 3%nat), w') /\
     length all_results = 12%nat /\
     requests_sent (search_loop self queries [] 0) w =
       search_request self <$> firstn 3 queries).
Proof.
  split.
  - intros q1 q2 acc' succ' w' -> Hrun Hge.
    eapply search_loop_quota; [cbn; lia|exact Hrun|exact Hge].
  - intros Hserver Hlen.
    destruct queries as [|qa [|qb [|qc rest]]]; cbn in Hlen; try lia.
    destruct (Hserver (length (sent w)) qa) as (t1 & rs1 & H1 & L1).
    pose proof (search_step_answered self qa t1 rs1 [] 0 w H1) as S1.
    set (w1 := record_request (search_request self qa) w) in *.
    destruct (Hserver (length (sent w1)) qb) as (t2 & rs2 & H2 & L2).
    pose proof (search_step_answered self qb t2 rs2 ([] ++ rs1) 1 w1 H2) as S2.
    set (w2 := record_request (search_request self qb) w1) in *.
    destruct (Hserver (length (sent w2)) qc) as (t3 & rs3 & H3 & L3).
    pose proof (search_step_answered self qc t3 rs3 (([] ++ rs1) ++ rs2) 2 w2 H3) as S3.
    set (w3 := record_request (search_request self qc) w2) in *.
    assert (E1 : (10 <=? length ([] ++ rs1))%nat = false)
      by (apply Nat.leb_gt; rewrite length_app, L1; cbn; lia).
    assert (E2 : (10 <=? length (([] ++ rs1) ++ rs2))%nat = false)
      by (apply Nat.leb_gt; rewrite !length_app, L1, L2; cbn; lia).
    assert (E3 : (10 <=? length ((([] ++ rs1) ++ rs2) ++ rs3))%nat = true)
      by (apply Nat.leb_le; rewrite !length_app, L1, L2, L3; cbn; lia).
    rewrite E1 in S1. rewrite E2 in S2. rewrite E3 in S3.
    assert (Hrun : search_loop self (qa :: qb :: qc :: rest) [] 0 w =
                   (Returned ((([] ++ rs1) ++ rs2) ++ rs3, 3%nat), w3)).
    { rewrite (search_loop_cons _ _ _ _ _ _ _ _ _ _ S1).
      rewrite (search_loop_cons _ _ _ _ _ _ _ _ _ _ S2).
      rewrite (search_loop_cons _ _ _ _ _ _ _ _ _ _ S3). reflexivity. }
    exists ((([] ++ rs1) ++ rs2) ++ rs3), w3. split; [exact Hrun|]. split.
    + rewrite !length_app, L1, L2, L3. reflexivity.
    + unfold requests_sent. rewrite Hrun. cbn [snd].
      unfold w3, w2, w1, record_request. cbn [sent firstn fmap list_fmap].
      rewrite <- !app_assoc. rewrite drop_app_length. reflexivity.
Qed.

Lemma search_stops_at_quota_witness :
  requests_sent
    (search_loop exa_only ["q1"; "q2"; "q3"; "q4"; "q5"] [] 0) search_only =
  [search_request exa_only "q1"; search_request exa_only "q2";
   search_request exa_only "q3"].
Proof.
  destruct (proj2 (search_stops_at_quota exa_only ["q1"; "q2"; "q3"; "q4"; "q5"]
                     search_only)) as (all_results & w' & _ & _ & E).
  - intros n query. exists "", (four_hits n). split; reflexivity.
  - cbn. lia.
  - exact E.
Defined.

Section SearchFacts.

Lemma search_loop_safe (self : Config) (queries : list string) (acc : list result)
    (succ : nat) :
  safe (search_loop self queries acc succ).
Proof.
  revert acc succ. induction queries as [|q r IH]; intros acc succ w.
  - eexists _, _. reflexivity.
  - destruct (search_step_returns self q acc succ w) as (stop & acc1 & succ1 & Hs & _).
    rewrite (search_loop_cons _ _ _ _ _ _ _ _ _ _ Hs).
    destruct stop; [eexists _, _; reflexivity|apply IH].
Qed.

(** With the search credential, and when the queries can be composed,
    the search returns the dictionary of the last block. *)
Lemma search_restaurants_runs (self : Config) (location cuisine : string)
    (user_id : option string) (w w1 w2 : world) (search_queries : list string)
    (all_results : list result) (successful_queries : nat) :
  truthy (exa_api_key self) = true ->
  search_queries_for self location cuisine user_id w = (Returned search_queries, w1) ->
  search_loop self (firstn 6 search_queries) [] 0 w1 =
    (Returned (all_results, successful_queries), w2) ->
  search_restaurants self location cuisine user_id w =
    (Returned (search_post_pass search_queries all_results successful_queries), w2).
Proof.
  intros Hk Hq Hl. unfold search_restaurants. rewrite Hk. cbn [negb].
  apply try_except_returned.
  rewrite (bind_returned _ _ _ _ _ Hq).
  rewrite (bind_returned _ _ _ _ _ Hl). reflexivity.
Qed.

End SearchFacts.

(** C6.  The dictionary that [search_restaurants] returns tells a search
    that ran and found nothing from a search that could not run.  With
    the search credential absent it has the key [error]; it is returned
    at once and has no results.  With the credential present, when the
    loop ends with no result of a usable URL, it has no key [error]; its
    [results] are empty, its [total_found] is 0 and it carries a
    [debug_info] text. *)
Theorem empty_result_differs_from_missing_key (self : Config) (location cuisine : string)
    (user_id : option string) (w : world) :
  (exa_api_key self = "" ->
   exists d, search_restaurants self location cuisine user_id w = (Returned d, w) /\
             d !! "error" = Some (FText exa_key_message) /\
             d !! "results" = None /\ d !! "total_found" = None) /\
  (truthy (exa_api_key self) = true ->
   forall search_queries w1 all_results successful_queries w2,
     search_queries_for self location cuisine user_id w = (Returned search_queries, w1) ->
     search_loop self (firstn 6 search_queries) [] 0 w1 =
       (Returned (all_results, successful_queries), w2) ->
     unique_results_of all_results = [] ->
     exists d info,
       search_restaurants self location cuisine user_id w = (Returned d, w2) /\
       d !! "error" = None /\
       d !! "results" = Some (FResults []) /\
       d !! "total_found" = Some (FCount 0) /\
       d !! "debug_info" = Some (FText info)).
Proof.
  split.
  - intros Hk. eexists. split; [apply search_restaurants_without_key, Hk|].
    repeat split.
  - intros Hk search_queries w1 all_results successful_queries w2 Hq Hl Hu.
    destruct (post_pass_debug_info search_queries all_results successful_queries)
      as [info Hinfo].
    exists (search_post_pass search_queries all_results successful_queries), info.
    split; [apply (search_restaurants_runs _ _ _ _ _ w1); assumption|].
    split; [apply post_pass_no_error|].
    split; [rewrite post_pass_results, Hu; reflexivity|].
    split; [rewrite post_pass_total_found, Hu; reflexivity|exact Hinfo].
Qed.

(** The two shapes at work: without the key, and with the key when no
    server can be reached. *)
Lemma empty_result_differs_from_missing_key_witness :
  (exists d, search_restaurants no_keys "Pune" "" None offline = (Returned d, offline) /\
             d !! "error" = Some (FText exa_key_message)) /\
  (exists d w2, search_restaurants exa_only "Pune" "" None offline = (Returned d, w2) /\
                d !! "error" = None /\ d !! "total_found" = Some (FCount 0)).
Proof.
  pose proof (empty_result_differs_from_missing_key no_keys "Pune" "" None offline)
    as [Hmissing _].
  pose proof (empty_result_differs_from_missing_key exa_only "Pune" "" None offline)
    as [_ Hempty].
  split.
  - destruct (Hmissing eq_refl) as (d & Hd & He & _). exists d. split; assumption.
  - destruct (Hempty eq_refl
                ["best  restaurants in Pune"; "good restaurants Pune reviews";
                 "Pune restaurants zomato swiggy"]
                offline [] 0%nat
                (snd (search_loop exa_only
                        ["best  restaurants in Pune"; "good restaurants Pune reviews";
                         "Pune restaurants zomato swiggy"] [] 0 offline))
                eq_refl eq_refl eq_refl)
      as (d & info & Hd & He & _ & Ht & _).
    exists d. eexists. split; [exact Hd|]. split; assumption.
Defined.

(* ===================================================================== *)
(** * The JSON reader reads what the writer wrote *)
(* ===================================================================== *)

Section JsonFacts.
Import Json.

#[local] Arguments String.append !_ _ / : simpl nomatch.
Lemma append_assoc (a b c : string) : (a +:+ b) +:+ c = a +:+ (b +:+ c).
Proof. induction a as [|x a IH]; simpl; [reflexivity|]. rewrite IH. reflexivity. Qed.
Lemma length_append (a b : string) :
  String.length (a +:+ b) = (String.length a + String.length b)%nat.
Proof. induction a as [|x a IH]; simpl; [reflexivity|]. rewrite IH. reflexivity. Qed.
Lemma parse_chars_escape_char (c : ascii) (tail : string) :
  parse_chars (escape_char c +:+ tail) =
  match parse_chars tail with
  | Some (t, rest) => Some (String c t, rest)
  | None => None
  end.
Proof. destruct c as [[] [] [] [] [] [] [] []]; reflexivity. Qed.
Lemma parse_chars_escape (s rest : string) :
  parse_chars (escape s +:+ String dquote rest) = Some (s, rest).
Proof.
  induction s as [|c s IH]; [reflexivity|].
  cbn [escape]. rewrite append_assoc, parse_chars_escape_char, IH. reflexivity.
Qed.

Lemma dumps_str_append (s rest : string) :
  dumps_str s +:+ rest = String dquote (escape s +:+ String dquote rest).
Proof. unfold dumps_str. simpl. rewrite append_assoc. reflexivity. Qed.

Lemma parse_value_quote (f : nat) (x : string) :
  parse_value (S f) (String dquote x) =
  match parse_chars x with
  | Some (t, rest) => Some (PStr t, rest)
  | None => None
  end.
Proof. reflexivity. Qed.

Lemma parse_value_atom (v : pyval) (f : nat) (rest : string) :
  is_atom v = true ->
  parse_value (S f) (dumps v +:+ rest) = Some (v, rest).
Proof.
  destruct v as [|[]| |s| |]; try discriminate; intros _; try reflexivity.
  cbn [dumps]. rewrite dumps_str_append, parse_value_quote, parse_chars_escape.
  reflexivity.
Qed.

Lemma skip_ws_atom (v : pyval) (rest : string) :
  is_atom v = true -> skip_ws (dumps v +:+ rest) = dumps v +:+ rest.
Proof.
  destruct v as [|[]| |s| |]; try discriminate; intros _; reflexivity.
Qed.

Lemma skip_ws_space (s : string) : skip_ws (" " +:+ s) = skip_ws s.
Proof. reflexivity. Qed.

Lemma dumps_items_cons (x y : pyval) (l : list pyval) :
  dumps_items dumps (x :: y :: l) = dumps x +:+ ", " +:+ dumps_items dumps (y :: l).
Proof. reflexivity. Qed.

Lemma dumps_items_head (x : pyval) (l : list pyval) :
  exists tail, dumps_items dumps (x :: l) = dumps x +:+ tail.
Proof. destruct l; eexists; reflexivity. Qed.

Lemma parse_items_close (f : nat) (s rest : string) (x : pyval) :
  parse_value f s = Some (x, "]" +:+ rest) ->
  parse_items (S f) s = Some ([x], rest).
Proof. intros H. simpl parse_items. rewrite H. reflexivity. Qed.

Lemma parse_items_more (f : nat) (s rest : string) (x : pyval) :
  parse_value f s = Some (x, ", " +:+ rest) ->
  parse_items (S f) s =
  match parse_items f (skip_ws rest) with
  | Some (l, rest') => Some (x :: l, rest')
  | None => None
  end.
Proof. intros H. simpl parse_items. rewrite H. reflexivity. Qed.

Lemma parse_items_atoms (l : list pyval) (x : pyval) (f : nat) (rest : string) :
  forallb is_atom (x :: l) = true ->
  (length l + 2 <= f)%nat ->
  parse_items f (dumps_items dumps (x :: l) +:+ rest) = Some (x :: l, rest).
Proof.
  revert x f. induction l as [|y l IH]; intros x f Ha Hf.
  - destruct f as [|[|f]]; try (cbn in Hf; lia).
    apply andb_prop in Ha as [Hx _].
    apply parse_items_close. cbn [dumps_items]. rewrite append_assoc.
    apply parse_value_atom, Hx.
  - destruct f as [|[|f]]; try (cbn in Hf; lia).
    cbn [forallb] in Ha. apply andb_prop in Ha as [Hx Ha].
    rewrite dumps_items_cons, !append_assoc.
    rewrite (parse_items_more _ _ (dumps_items dumps (y :: l) +:+ rest) x).
    2:{ apply parse_value_atom, Hx. }
    destruct (dumps_items_head y l) as [tail Et].
    assert (Hs : skip_ws (dumps_items dumps (y :: l) +:+ rest) =
                 dumps_items dumps (y :: l) +:+ rest).
    { rewrite Et, append_assoc. apply skip_ws_atom.
      cbn [forallb] in Ha. apply andb_prop in Ha as [Hy _]. exact Hy. }
    rewrite Hs, IH; [reflexivity|exact Ha|cbn in Hf |- *; lia].
Qed.

Lemma append_nil_r (s : string) : s +:+ "" = s.
Proof. induction s as [|c s IH]; simpl; [reflexivity|]. rewrite IH. reflexivity. Qed.

Lemma dumps_items_length (l : list pyval) :
  (length l <= String.length (dumps_items dumps l))%nat.
Proof.
  induction l as [|x l IH]; [cbn; lia|].
  destruct l as [|y l].
  - cbn [dumps_items]. rewrite length_append. cbn. lia.
  - rewrite dumps_items_cons, !length_append. cbn [length] in *.
    change (String.length ", ") with 2%nat. lia.
Qed.

Lemma parse_value_bracket (f : nat) (x : pyval) (tail : string) :
  is_atom x = true ->
  parse_value (S f) ("[" +:+ dumps x +:+ tail) =
  match parse_items f (dumps x +:+ tail) with
  | Some (l, rest) => Some (PList l, rest)
  | None => None
  end.
Proof. destruct x as [|[]| |s| |]; try discriminate; intros _; reflexivity. Qed.

(** An array of atoms is read back. *)
Lemma loads_dumps_atoms (l : list pyval) :
  forallb is_atom l = true -> loads (dumps (PList l)) = Some (PList l).
Proof.
  intros Ha. destruct l as [|x l]; [reflexivity|].
  unfold loads. cbn [dumps].
  change (skip_ws ("[" +:+ dumps_items dumps (x :: l)))
    with ("[" +:+ dumps_items dumps (x :: l)).
  destruct (dumps_items_head x l) as [tail Et].
  pose proof (parse_items_atoms l x (String.length ("[" +:+ dumps_items dumps (x :: l))) ""
                Ha) as Hp.
  rewrite append_nil_r in Hp.
  assert (Hx : is_atom x = true) by (cbn in Ha; apply andb_prop in Ha as [? _]; assumption).
  rewrite Et at 2. rewrite (parse_value_bracket _ _ _ Hx), <- Et, Hp; [reflexivity|].
  pose proof (dumps_items_length (x :: l)) as Hl.
  rewrite length_append. cbn [length] in Hl. change (String.length "[") with 1%nat. lia.
Qed.

Lemma dumps_members_cons (k k' : string) (x x' : pyval) (d : list (string * pyval)) :
  dumps_members dumps ((k, x) :: (k', x') :: d) =
  dumps_str k +:+ ": " +:+ dumps x +:+ ", " +:+ dumps_members dumps ((k', x') :: d).
Proof. reflexivity. Qed.

Lemma dumps_members_head (k : string) (x : pyval) (d : list (string * pyval)) :
  exists tail, dumps_members dumps ((k, x) :: d) = dumps_str k +:+ tail.
Proof. destruct d as [|[]]; eexists; reflexivity. Qed.

Lemma dumps_members_length (d : list (string * pyval)) :
  (length d <= String.length (dumps_members dumps d))%nat.
Proof.
  induction d as [|[k x] d IH]; [cbn; lia|].
  destruct d as [|[k' x'] d].
  - cbn [dumps_members]. rewrite !length_append. cbn. lia.
  - rewrite dumps_members_cons, !length_append. cbn [length] in *.
    change (String.length ", ") with 2%nat. lia.
Qed.

(** One member is read: its key, the colon, its value. *)
Lemma parse_members_step (f : nat) (k : string) (x : pyval) (tail : string)
    (acc : list (string * pyval)) :
  is_atom x = true ->
  parse_members (S (S f)) (dumps_str k +:+ ": " +:+ dumps x +:+ tail) acc =
  match skip_ws tail with
  | String c r2 =>
      if (code c =? 125)%nat then Some (items_set acc k x, r2)
      else if (code c =? 44)%nat then parse_members (S f) (skip_ws r2) (items_set acc k x)
      else None
  | EmptyString => None
  end.
Proof.
  intros Hx. rewrite dumps_str_append.
  change (parse_members (S (S f)) (String dquote ?r) acc) with
    (match parse_chars r with
     | Some (k, rest) =>
         match skip_ws rest with
         | String colon rest1 =>
             if (code colon =? 58)%nat then
               match parse_value (S f) (skip_ws rest1) with
               | Some (v, rest2) =>
                   let acc' := items_set acc k v in
                   match skip_ws rest2 with
                   | String c r2 =>
                       if (code c =? 125)%nat then Some (acc', r2)
                       else if (code c =? 44)%nat then parse_members (S f) (skip_ws r2) acc'
                       else None
                   | EmptyString => None
                   end
               | None => None
               end
             else None
         | EmptyString => None
         end
     | None => None
     end).
  rewrite parse_chars_escape.
  change (skip_ws (": " +:+ dumps x +:+ tail)) with (String ":" (" " +:+ dumps x +:+ tail)).
  cbv beta iota.
  change (code ":" =? 58)%nat with true. cbv beta iota.
  rewrite skip_ws_space, (skip_ws_atom _ _ Hx), (parse_value_atom _ _ _ Hx).
  reflexivity.
Qed.

Lemma items_set_fresh (acc : list (string * pyval)) (k : string) (v : pyval) :
  k ∉ fst <$> acc -> items_set acc k v = acc ++ [(k, v)].
Proof.
  induction acc as [|[k' v'] acc IH]; intros Hk; [reflexivity|].
  cbn [items_set]. rewrite fmap_cons in Hk. apply not_elem_of_cons in Hk as [Hne Hk].
  destruct (String.eqb_spec k' k) as [->|_]; [contradiction|].
  rewrite IH by exact Hk. reflexivity.
Qed.

Lemma parse_members_atoms (d : list (string * pyval)) (k : string) (x : pyval)
    (acc : list (string * pyval)) (f : nat) (rest : string) :
  forallb (fun kv => is_atom (snd kv)) ((k, x) :: d) = true ->
  NoDup (fst <$> (acc ++ (k, x) :: d)) ->
  (length d + 2 <= f)%nat ->
  parse_members f (dumps_members dumps ((k, x) :: d) +:+ rest) acc =
  Some (acc ++ (k, x) :: d, rest).
Proof.
  revert k x acc f. induction d as [|[k' x'] d IH]; intros k x acc f Ha Hnd Hf.
  - destruct f as [|[|f]]; try (cbn in Hf; lia).
    cbn [forallb snd] in Ha. apply andb_prop in Ha as [Hx _].
    cbn [dumps_members]. rewrite !append_assoc.
    rewrite (parse_members_step _ _ _ _ _ Hx).
    change (skip_ws ("}" +:+ rest)) with (String "}" rest). cbv beta iota.
    change (code "}" =? 125)%nat with true. cbv beta iota.
    rewrite items_set_fresh; [reflexivity|].
    rewrite fmap_app, fmap_cons in Hnd. apply NoDup_app in Hnd as (_ & Hd & _).
    intros Hin. apply (Hd _ Hin). apply list_elem_of_here.
  - destruct f as [|[|f]]; try (cbn in Hf; lia).
    cbn [forallb snd] in Ha. apply andb_prop in Ha as [Hx Ha].
    rewrite dumps_members_cons, !append_assoc.
    rewrite (parse_members_step _ _ _ _ _ Hx).
    change (skip_ws (", " +:+ ?z)) with (String "," (" " +:+ z)). cbv beta iota.
    change (code "," =? 125)%nat with false.
    change (code "," =? 44)%nat with true. cbv beta iota.
    rewrite skip_ws_space.
    destruct (dumps_members_head k' x' d) as [tail Et].
    assert (Hs : skip_ws (dumps_members dumps ((k', x') :: d) +:+ rest) =
                 dumps_members dumps ((k', x') :: d) +:+ rest).
    { rewrite Et, append_assoc. apply (skip_ws_atom (PStr k')). reflexivity. }
    assert (Hfresh : k ∉ fst <$> acc).
    { rewrite fmap_app, fmap_cons in Hnd. apply NoDup_app in Hnd as (_ & Hd & _).
      intros Hin. apply (Hd _ Hin). apply list_elem_of_here. }
    rewrite Hs, (items_set_fresh _ _ _ Hfresh).
    rewrite IH; [rewrite <- app_assoc; reflexivity|exact Ha| |cbn in Hf |- *; lia].
    rewrite <- app_assoc. exact Hnd.
Qed.

Lemma parse_value_brace (f : nat) (k tail : string) :
  parse_value (S f) ("{" +:+ dumps_str k +:+ tail) =
  match parse_members f (dumps_str k +:+ tail) [] with
  | Some (d, rest) => Some (PDict d, rest)
  | None => None
  end.
Proof. reflexivity. Qed.

(** An object whose values are atoms and whose keys are distinct is read
    back. *)
Lemma loads_dumps_atom_members (d : list (string * pyval)) :
  forallb (fun kv => is_atom (snd kv)) d = true ->
  NoDup (fst <$> d) ->
  loads (dumps (PDict d)) = Some (PDict d).
Proof.
  intros Ha Hnd. destruct d as [|[k x] d]; [reflexivity|].
  unfold loads. cbn [dumps].
  change (skip_ws ("{" +:+ dumps_members dumps ((k, x) :: d)))
    with ("{" +:+ dumps_members dumps ((k, x) :: d)).
  destruct (dumps_members_head k x d) as [tail Et].
  pose proof (parse_members_atoms d k x []
                (String.length ("{" +:+ dumps_members dumps ((k, x) :: d))) "" Ha Hnd) as Hp.
  rewrite append_nil_r in Hp.
  rewrite Et at 2. rewrite parse_value_brace, <- Et, Hp; [reflexivity|].
  pose proof (dumps_members_length ((k, x) :: d)) as Hl.
  rewrite length_append. cbn [length] in Hl. change (String.length "{") with 1%nat. lia.
Qed.

End JsonFacts.

(* ===================================================================== *)
(** * Preference store (C9) *)
(* ===================================================================== *)

Section RoundTripFacts.

Lemma sql_read_cell (v : pyval) :
  is_number v || is_text v = true -> sql_read (sql_cell v) = v.
Proof. destruct v; cbn; intros H; try discriminate; reflexivity. Qed.

Lemma sql_bind_cell (v : pyval) (w : world) :
  is_number v || is_text v = true -> sql_bind v w = (Returned (sql_cell v), w).
Proof. destruct v; cbn; intros H; try discriminate; reflexivity. Qed.

Lemma bind_columns_cells (preferences : pydict) (columns : list string) (w : world) :
  forallb (fun k => is_number (py_get preferences k) || is_text (py_get preferences k))
          columns = true ->
  bind_columns preferences columns w =
  (Returned (map (fun k => (k, sql_cell (py_get preferences k))) columns), w).
Proof.
  induction columns as [|k r IH]; [reflexivity|].
  cbn [forallb]. intros [Hk Hr]%andb_prop.
  cbn [bind_columns map].
  rewrite (bind_returned _ _ _ _ _ (sql_bind_cell _ w Hk)).
  rewrite (bind_returned _ _ _ _ _ (IH Hr)). reflexivity.
Qed.

Lemma absent_or_get (f : pyval -> bool) (preferences : pydict) (k : string) :
  f PNone = true -> absent_or f (preferences !! k) = true ->
  f (py_get preferences k) = true.
Proof. unfold py_get. destruct (preferences !! k); cbn; auto. Qed.

(** In a well-typed record every plain column can be bound. *)
Lemma well_typed_scalars (preferences : pydict) :
  well_typed preferences = true ->
  forallb (fun k => is_number (py_get preferences k) || is_text (py_get preferences k))
          scalar_columns = true.
Proof.
  unfold well_typed. intros [[[Hn Ht]%andb_prop _]%andb_prop _]%andb_prop.
  cbn [forallb numeric_columns text_columns] in Hn, Ht.
  repeat match goal with
         | H : _ && _ = true |- _ => apply andb_prop in H as [? ?]
         end.
  cbn [forallb scalar_columns].
  repeat match goal with
         | H : absent_or is_number _ = true |- _ =>
             apply (absent_or_get is_number _ _ eq_refl) in H; rewrite H; clear H
         | H : absent_or is_text _ = true |- _ =>
             apply (absent_or_get is_text _ _ eq_refl) in H; rewrite H; clear H
         end.
  rewrite ?orb_true_r. reflexivity.
Qed.

Lemma is_str_atom (l : list pyval) : forallb is_str l = true -> forallb is_atom l = true.
Proof.
  induction l as [|x l IH]; [reflexivity|]. cbn [forallb].
  intros [Hx Hl]%andb_prop. rewrite (IH Hl). destruct x; try discriminate. reflexivity.
Qed.

Lemma is_bool_atom (d : list (string * pyval)) :
  forallb (fun kv => is_bool (snd kv)) d = true ->
  forallb (fun kv => is_atom (snd kv)) d = true.
Proof.
  induction d as [|[k x] d IH]; [reflexivity|]. cbn [forallb snd].
  intros [Hx Hd]%andb_prop. rewrite (IH Hd). destruct x; try discriminate. reflexivity.
Qed.

Lemma loads_dumps_str_list (v : pyval) :
  is_str_list v = true -> Json.loads (Json.dumps v) = Some v.
Proof.
  destruct v; try discriminate. cbn [is_str_list]. intros H.
  apply loads_dumps_atoms, is_str_atom, H.
Qed.

Lemma loads_dumps_goal_map (v : pyval) :
  is_goal_map v = true -> Json.loads (Json.dumps v) = Some v.
Proof.
  destruct v; try discriminate. cbn [is_goal_map].
  intros [Hb Hn%bool_decide_eq_true]%andb_prop.
  apply loads_dumps_atom_members; [apply is_bool_atom, Hb|exact Hn].
Qed.

(** In a well-typed record the text written for an encoded column is
    read back as the value it was written from. *)
Lemma well_typed_encoded (preferences : pydict) (k dflt : string) :
  well_typed preferences = true ->
  (k, dflt) ∈ json_columns ->
  Json.loads (Json.dumps (encoded_value preferences k)) = Some (encoded_value preferences k).
Proof.
  unfold well_typed. intros [[_ Hl]%andb_prop Hg]%andb_prop Hin.
  cbn [forallb list_columns] in Hl.
  repeat match goal with
         | H : _ && _ = true |- _ => apply andb_prop in H as [? ?]
         end.
  unfold json_columns in Hin.
  repeat (apply elem_of_cons in Hin as [[= -> ->]|Hin]);
    [..|inversion Hin];
    unfold encoded_value;
    match goal with
    | |- context [preferences !! ?key] =>
        destruct (preferences !! key) eqn:E; cbn [default absent_or] in *;
        [|reflexivity]
    end;
    first [apply loads_dumps_str_list; assumption
          |apply loads_dumps_goal_map; assumption].
Qed.

(** Decoding the encoded columns of a row read from the store. *)
Lemma parse_json_fields_decoded (fields : list (string * string))
    (j : string -> pyval) (preferences : pydict) (w : world) :
  NoDup (fst <$> fields) ->
  (forall k dflt, (k, dflt) ∈ fields ->
     preferences !! k = Some (PStr (Json.dumps (j k))) /\
     Json.loads (Json.dumps (j k)) = Some (j k)) ->
  parse_json_fields fields preferences w =
  (Returned (decoded fields j preferences), w).
Proof.
  revert preferences. induction fields as [|[k dflt] r IH]; intros preferences Hnd Hf;
    [reflexivity|].
  rewrite fmap_cons in Hnd. apply NoDup_cons in Hnd as [Hk Hnd].
  destruct (Hf k dflt (list_elem_of_here _ _)) as [Hl Hj].
  assert (Hload : json_loads (default (PStr dflt) (preferences !! k)) w =
                  (Returned (j k), w)).
  { rewrite Hl. unfold json_loads, default, id. rewrite Hj. reflexivity. }
  cbn [parse_json_fields decoded foldl fst].
  fold (decoded r j (<[k := j k]> preferences)).
  unfold try_except_json. rewrite (bind_returned _ _ _ _ _ Hload).
  rewrite IH; [reflexivity|exact Hnd|].
  intros k' d' Hin. destruct (Hf k' d' (list_elem_of_further _ _ _ Hin)) as [Hl' Hj'].
  split; [|exact Hj'].
  rewrite lookup_insert_ne; [exact Hl'|].
  intros <-. apply Hk. apply list_elem_of_fmap. exists (k, d'). split; [reflexivity|exact Hin].
Qed.

(** The row that is written, column by column, and the dictionary that
    is read from it. *)
Lemma written_row_columns (id : Z) (user_id stamp : string)
    (j : string -> pyval) (c : string -> sqlval) :
  let row := written_row id user_id stamp j c in
  let got := decoded json_columns j (sql_read <$> row) in
  (forall k dflt, (k, dflt) ∈ json_columns ->
     row !! k = Some (SqlText (Json.dumps (j k))) /\
     (sql_read <$> row) !! k = Some (PStr (Json.dumps (j k))) /\
     got !! k = Some (j k)) /\
  (forall k, k ∈ scalar_columns -> got !! k = Some (sql_read (c k))) /\
  got !! "user_id" = Some (PStr user_id).
Proof.
  cbv zeta. split; [|split].
  - intros k dflt Hin. unfold json_columns in Hin.
    repeat (apply elem_of_cons in Hin as [[= -> ->]|Hin]);
      [..|inversion Hin]; repeat split; reflexivity.
  - intros k Hin. unfold scalar_columns in Hin.
    repeat (apply elem_of_cons in Hin as [->|Hin]); [..|inversion Hin]; reflexivity.
  - reflexivity.
Qed.

End RoundTripFacts.

Section RoundTrip.

Variables (user_id : string) (preferences : pydict) (w : world).
Hypothesis typed : well_typed preferences = true.

Let row : gmap string sqlval :=
  written_row (preferences_seq w + 1) user_id (now w)
              (encoded_value preferences) (fun k => sql_cell (py_get preferences k)).

Let w' : world :=
  World (<[user_id := row]> (user_preferences w)) (preferences_seq w + 1)
        (nutrition_logs w) (now w) (server w) (sent w).

Lemma save_writes_row :
  save_user_preferences user_id preferences w =
  (Returned "✅ Preferences saved successfully!", w').
Proof.
  unfold save_user_preferences, try_except, mbind, py_bind.
  rewrite (bind_columns_cells preferences scalar_columns w
                (well_typed_scalars preferences typed)).
  cbv beta iota zeta.
  unfold insert_or_replace_preferences.
  cbv beta iota zeta.
  reflexivity.
Qed.

Let got : pydict := decoded json_columns (encoded_value preferences) (sql_read <$> row).

Lemma get_reads_row : get_user_preferences user_id w' = (Returned got, w').
Proof.
  assert (Hsel : user_preferences w' !! user_id = Some row).
  { unfold w'. cbn [user_preferences]. apply lookup_insert_eq. }
  assert (Hparse : parse_json_fields json_columns (sql_read <$> row) w' =
                   (Returned got, w')).
  { apply parse_json_fields_decoded.
    - unfold json_columns. cbn [fmap list_fmap fst]. compute_done.
    - intros k dflt Hin. split.
      + pose proof (written_row_columns (preferences_seq w + 1) user_id (now w)
                      (encoded_value preferences)
                      (fun k => sql_cell (py_get preferences k))) as (Hjson & _).
        destruct (Hjson k dflt Hin) as (_ & Hread & _). exact Hread.
      + apply (well_typed_encoded preferences k dflt typed Hin). }
  unfold get_user_preferences, try_except, mbind, py_bind, select_preferences.
  rewrite Hsel, Hparse.
  reflexivity.
Qed.
End RoundTrip.



(* ===================================================================== *)
(** * The footprint of the methods *)
(* ===================================================================== *)

Section FootprintFacts.

Variable self : Config.

Lemma evolves_refl (w : world) : evolves self 0 0 w w.
Proof.
  repeat split; try reflexivity.
  - exists []. rewrite app_nil_r. split; [reflexivity|cbn; lia].
  - exists []. rewrite app_nil_r. repeat split; cbn; lia.
Qed.

Lemma evolves_weaken (r n r' n' : nat) (w w' : world) :
  (r <= r')%nat -> (n <= n')%nat -> evolves self r n w w' -> evolves self r' n' w w'.
Proof.
  intros Hr Hn (Hp & Hs & Ht & Hv & (rows & Hl & Hlr) & (new & Hq & Hqn & Hqa)).
  repeat split; try assumption.
  - exists rows. split; [assumption|lia].
  - exists new. repeat split; [assumption|lia|assumption].
Qed.

Lemma evolves_trans (r1 n1 r2 n2 : nat) (w w1 w2 : world) :
  evolves self r1 n1 w w1 -> evolves self r2 n2 w1 w2 ->
  evolves self (r1 + r2) (n1 + n2) w w2.
Proof.
  intros (Hp & Hs & Ht & Hv & (rows & Hl & Hlr) & (new & Hq & Hqn & Hqa))
         (Hp' & Hs' & Ht' & Hv' & (rows' & Hl' & Hlr') & (new' & Hq' & Hqn' & Hqa')).
  repeat split; try congruence.
  - exists (rows ++ rows'). rewrite Hl', Hl, app_assoc, length_app.
    split; [reflexivity|lia].
  - exists (new ++ new'). rewrite Hq', Hq, app_assoc, length_app, forallb_app, Hqa, Hqa'.
    repeat split; lia.
Qed.

Lemma keeps_weaken {A : Type} (r n r' n' : nat) (m : py A) :
  (r <= r')%nat -> (n <= n')%nat -> keeps self r n m -> keeps self r' n' m.
Proof. intros Hr Hn Hm w. eapply evolves_weaken; [exact Hr|exact Hn|apply Hm]. Qed.

Lemma keeps_silent {A : Type} (m : py A) : silent m -> keeps self 0 0 m.
Proof. intros Hm w. rewrite Hm. apply evolves_refl. Qed.

(** Sequencing, the second computation being run only on what the first
    returns. *)
Lemma evolves_bind {A B : Type} (r1 n1 r2 n2 : nat) (m : py A) (f : A -> py B) (w : world) :
  evolves self r1 n1 w (snd (m w)) ->
  (forall a w1, m w = (Returned a, w1) -> evolves self r2 n2 w1 (snd (f a w1))) ->
  evolves self (r1 + r2) (n1 + n2) w (snd ((m ≫= f) w)).
Proof.
  intros Hm Hf. unfold mbind, py_bind.
  destruct (m w) as [[a|e] w1] eqn:E; cbn [snd] in *.
  - eapply evolves_trans; [exact Hm|apply Hf; reflexivity].
  - eapply evolves_weaken; [| |exact Hm]; lia.
Qed.

Lemma keeps_bind {A B : Type} (r1 n1 r2 n2 : nat) (m : py A) (f : A -> py B) :
  keeps self r1 n1 m -> (forall a, keeps self r2 n2 (f a)) ->
  keeps self (r1 + r2) (n1 + n2) (m ≫= f).
Proof. intros Hm Hf w. apply evolves_bind; [apply Hm|intros a w1 _; apply Hf]. Qed.

Lemma keeps_try_except {A : Type} (r n : nat) (m : py A) (h : exn -> py A) :
  keeps self r n m -> (forall e, silent (h e)) -> keeps self r n (try_except m h).
Proof.
  intros Hm Hh w. unfold try_except. specialize (Hm w).
  destruct (m w) as [[a|e] w1]; cbn [snd] in *; [exact Hm|].
  rewrite Hh. exact Hm.
Qed.

Lemma keeps_try_except_json {A : Type} (r n : nat) (m h : py A) :
  keeps self r n m -> silent h -> keeps self r n (try_except_json m h).
Proof.
  intros Hm Hh w. unfold try_except_json. specialize (Hm w).
  destruct (m w) as [[a|[msg|msg]] w1]; cbn [snd] in *; try exact Hm.
  rewrite Hh. exact Hm.
Qed.

Lemma keeps_if {A : Type} (r n : nat) (b : bool) (m1 m2 : py A) :
  keeps self r n m1 -> keeps self r n m2 -> keeps self r n (if b then m1 else m2).
Proof. destruct b; auto. Qed.

(** Sending one well-addressed request. *)
Lemma keeps_requests_post (req : request) :
  well_addressed self req = true -> keeps self 0 1 (requests_post req).
Proof.
  intros Ha w. unfold requests_post. cbv zeta.
  assert (H : evolves self 0 1 w (record_request req w)).
  { repeat split; try reflexivity.
    - exists []. rewrite app_nil_r. split; [reflexivity|cbn; lia].
    - exists [req]. cbn. rewrite Ha. repeat split; lia. }
  destruct (server w (length (sent w)) req); exact H.
Qed.

Lemma keeps_insert_log (user_id food_item calories : sqlval) :
  keeps self 1 0 (insert_log user_id food_item calories).
Proof.
  intros w. unfold insert_log. cbn [snd].
  repeat split; try reflexivity.
  - eexists [_]. split; [reflexivity|cbn; lia].
  - exists []. rewrite app_nil_r. repeat split; cbn; lia.
Qed.

Lemma silent_response_json (r : response) : silent (response_json r).
Proof. unfold response_json. destruct (json r); silent_tac. Qed.

Lemma silent_chat_content (b : json_body) : silent (chat_content b).
Proof. destruct b; silent_tac. Qed.

(** A chat call and the reading of its answer, as the methods do it. *)
Lemma keeps_mistral_post (timeout : Z) (task : chat_task) (max_tokens : Z) :
  keeps self 0 1
    (requests_post (Request mistral_url (mistral_api_key self) timeout
                      (MistralChat task max_tokens))).
Proof.
  apply keeps_requests_post. unfold well_addressed. cbn.
  rewrite !String.eqb_refl. reflexivity.
Qed.

Lemma keeps_search_step (query : string) (acc : list result) (succ : nat) :
  keeps self 0 1 (search_step self query acc succ).
Proof.
  intros w.
  destruct (search_step_returns self query acc succ w) as (stop & acc1 & succ1 & -> & _).
  cbn [snd].
  pose proof (keeps_requests_post (search_request self query)) as H.
  assert (Ha : well_addressed self (search_request self query) = true).
  { unfold well_addressed. cbn. rewrite !String.eqb_refl. reflexivity. }
  specialize (H Ha w). unfold requests_post in H. cbv zeta in H.
  destruct (server w (length (sent w)) (search_request self query)); exact H.
Qed.

Lemma keeps_search_loop (queries : list string) (acc : list result) (succ : nat) :
  keeps self 0 (length queries) (search_loop self queries acc succ).
Proof.
  revert acc succ. induction queries as [|q r IH]; intros acc succ.
  - apply keeps_silent. intros w. reflexivity.
  - cbn [search_loop length].
    change (S (length r)) with (1 + length r)%nat.
    change 0%nat with (0 + 0)%nat at 1.
    apply keeps_bind; [apply keeps_search_step|].
    intros [[stop acc1] succ1]. destruct stop.
    + eapply keeps_weaken; [| |apply keeps_silent; intros w; reflexivity]; lia.
    + apply IH.
Qed.

End FootprintFacts.

Section ComposerFootprint.

Variable self : Config.

Lemma bind_inv {A B : Type} (m : py A) (f : A -> py B) (w w' : world) (b : B) :
  (m ≫= f) w = (Returned b, w') ->
  exists a w1, m w = (Returned a, w1) /\ f a w1 = (Returned b, w').
Proof.
  unfold mbind, py_bind. destruct (m w) as [[a|e] w1]; [eauto|discriminate].
Qed.

(** The rule-based composer gives three queries whenever it returns. *)
Lemma fallback_queries_three (location : string) (user_prefs : pydict) (cuisine : string)
    (w w' : world) (qs : list string) :
  _generate_fallback_queries location user_prefs cuisine w = (Returned qs, w') ->
  length qs = 3%nat.
Proof.
  unfold _generate_fallback_queries.
  intros (dt & w1 & _ & H)%bind_inv.
  apply bind_inv in H as (ht & w2 & _ & H).
  injection H as <- _. reflexivity.
Qed.

Lemma smart_queries_unfold (location : string) (user_prefs : pydict) (cuisine : string) :
  _generate_smart_search_queries self location user_prefs cuisine =
  (generated ← ai_queries self location user_prefs cuisine;
   match generated with
   | Some queries => mret queries
   | None => _generate_fallback_queries location user_prefs cuisine
   end).
Proof. reflexivity. Qed.

Lemma ai_queries_three (location : string) (user_prefs : pydict) (cuisine : string)
    (w w' : world) (qs : list string) :
  ai_queries self location user_prefs cuisine w = (Returned (Some qs), w') ->
  length qs = 3%nat.
Proof.
  unfold ai_queries. destruct (truthy (mistral_api_key self)); [|discriminate].
  unfold try_except, mbind, py_bind, requests_post. cbv zeta.
  destruct (server w _ _) as [msg|r]; [discriminate|].
  destruct (status_code r =? 200); [|discriminate].
  unfold response_json.
  destruct (json r); cbn -[Nat.leb length filter firstn]; try discriminate.
  match goal with
  | |- context [(3 <=? length ?l)%nat] => destruct (3 <=? length l)%nat eqn:El
  end; [|discriminate].
  intros [= <- _]. apply Nat.leb_le in El. rewrite length_take. lia.
Qed.

Lemma keeps_ai_queries (location : string) (user_prefs : pydict) (cuisine : string) :
  keeps self 0 1 (ai_queries self location user_prefs cuisine).
Proof.
  unfold ai_queries. apply keeps_if;
    [|eapply keeps_weaken; [| |apply keeps_silent, silent_ret]; lia].
  apply keeps_try_except; [|intros; apply silent_ret].
  apply (keeps_bind self 0 1 0 0); [apply keeps_mistral_post|]. intros response.
  apply keeps_silent. apply silent_if; [|apply silent_ret].
  apply silent_bind; [apply silent_response_json|]. intros result.
  apply silent_bind; [apply silent_chat_content|]. intros content.
  cbv zeta. apply silent_if; apply silent_ret.
Qed.

Lemma keeps_smart_search_queries (location : string) (user_prefs : pydict)
    (cuisine : string) :
  keeps self 0 1 (_generate_smart_search_queries self location user_prefs cuisine).
Proof.
  rewrite smart_queries_unfold.
  apply (keeps_bind self 0 1 0 0); [apply keeps_ai_queries|].
  intros [queries|]; apply keeps_silent;
    [apply silent_ret|apply silent_generate_fallback_queries].
Qed.

End ComposerFootprint.

Section MethodFootprints.

Variable self : Config.

Lemma smart_queries_three (location : string) (user_prefs : pydict) (cuisine : string)
    (w w' : world) (qs : list string) :
  _generate_smart_search_queries self location user_prefs cuisine w = (Returned qs, w') ->
  length qs = 3%nat.
Proof.
  rewrite smart_queries_unfold. intros ([queries|] & w1 & Ha & H)%bind_inv.
  - injection H as <- _. eapply ai_queries_three, Ha.
  - eapply fallback_queries_three, H.
Qed.

Lemma silent_py_first (v : pyval) : silent (py_first v).
Proof. destruct v as [| | |[]|[]|]; silent_tac. Qed.

Lemma search_queries_for_three (location cuisine : string) (user_id : option string)
    (w w' : world) (qs : list string) :
  search_queries_for self location cuisine user_id w = (Returned qs, w') ->
  length qs = 3%nat.
Proof.
  unfold search_queries_for. intros (user_prefs & w1 & _ & H)%bind_inv.
  apply bind_inv in H as (c & w2 & _ & H). eapply smart_queries_three, H.
Qed.

Lemma keeps_search_queries_for (location cuisine : string) (user_id : option string) :
  keeps self 0 1 (search_queries_for self location cuisine user_id).
Proof.
  unfold search_queries_for.
  apply (keeps_bind self 0 0 0 1); [apply keeps_silent, silent_load_user_prefs|].
  intros user_prefs.
  apply (keeps_bind self 0 0 0 1).
  - apply keeps_silent. apply silent_if; [|apply silent_ret].
    apply silent_bind; [apply silent_py_first|]. intros c. apply silent_ret.
  - intros c. apply keeps_smart_search_queries.
Qed.

Lemma keeps_search_restaurants (location cuisine : string) (user_id : option string) :
  keeps self 0 4 (search_restaurants self location cuisine user_id).
Proof.
  unfold search_restaurants. apply keeps_try_except; [|intros; apply silent_ret].
  apply keeps_if.
  { eapply keeps_weaken; [| |apply keeps_silent, silent_ret]; lia. }
  intros w. apply (evolves_bind self 0 1 0 3).
  - apply keeps_search_queries_for.
  - intros qs w1 Hq. apply search_queries_for_three in Hq.
    apply (evolves_bind self 0 3 0 0).
    + eapply evolves_weaken; [| |apply keeps_search_loop]; [lia|].
      rewrite length_take. lia.
    + intros [all succ] w2 _. apply evolves_refl.
Qed.

Lemma keeps_recommendations (results : list result) (location : string)
    (user_prefs : pydict) :
  keeps self 0 1
    (_generate_ai_restaurant_recommendations self results location user_prefs).
Proof.
  unfold _generate_ai_restaurant_recommendations.
  apply keeps_try_except; [|intros; apply silent_ret].
  apply keeps_if.
  { eapply keeps_weaken; [| |apply keeps_silent, silent_ret]; lia. }
  apply (keeps_bind self 0 1 0 0); [apply keeps_mistral_post|]. intros response.
  apply keeps_silent. apply silent_if; [|apply silent_ret].
  apply silent_bind; [apply silent_response_json|]. intros b. apply silent_chat_content.
Qed.

Lemma silent_field_text (f : field) : silent (field_text f).
Proof. destruct f; silent_tac. Qed.

Lemma silent_field_results (f : field) : silent (field_results f).
Proof. destruct f; silent_tac. Qed.

Lemma keeps_format_restaurant_results (search_results : search_dict) (location : string)
    (user_prefs : pydict) :
  keeps self 0 1 (format_restaurant_results self search_results location user_prefs).
Proof.
  unfold format_restaurant_results.
  apply keeps_try_except; [|intros; apply silent_ret].
  destruct (search_results !! "error") as [err|].
  - eapply keeps_weaken; [| |apply keeps_silent]; [lia|lia|].
    apply silent_bind; [apply silent_field_text|]. intros msg.
    apply silent_if; apply silent_ret.
  - apply (keeps_bind self 0 0 0 1); [apply keeps_silent, silent_field_results|].
    intros results.
    apply (keeps_bind self 0 0 0 1); [apply keeps_silent, silent_field_text|].
    intros debug_info. destruct results.
    + eapply keeps_weaken; [| |apply keeps_silent, silent_ret]; lia.
    + apply keeps_recommendations.
Qed.

Lemma keeps_nutrition_advice (query : string) (user_prefs : pydict) :
  keeps self 0 1 (_get_ai_nutrition_advice self query user_prefs).
Proof.
  unfold _get_ai_nutrition_advice.
  apply keeps_try_except; [|intros; apply silent_ret].
  apply keeps_if.
  { eapply keeps_weaken; [| |apply keeps_silent, silent_ret]; lia. }
  apply (keeps_bind self 0 1 0 0); [apply keeps_mistral_post|]. intros response.
  apply keeps_silent. apply silent_if.
  - apply silent_bind; [apply silent_response_json|]. intros b. apply silent_chat_content.
  - cbv zeta. apply silent_if; apply silent_ret.
Qed.

Lemma keeps_workout_plan (user_prefs : pydict) (query : string) :
  keeps self 0 1 (generate_workout_plan self user_prefs query).
Proof.
  unfold generate_workout_plan. apply keeps_if.
  { eapply keeps_weaken; [| |apply keeps_silent, silent_raise]; lia. }
  apply (keeps_bind self 0 1 0 0); [apply keeps_mistral_post|]. intros response.
  apply keeps_silent. apply silent_if; [apply silent_raise|].
  apply silent_bind; [apply silent_response_json|]. intros b. apply silent_chat_content.
Qed.

Lemma keeps_log_food_intake (user_id : string) (food_item calories : pyval) :
  keeps self 1 0 (log_food_intake user_id food_item calories).
Proof.
  unfold log_food_intake. apply keeps_try_except; [|intros; apply silent_ret].
  apply (keeps_bind self 0 0 1 0); [apply keeps_silent, silent_sql_bind|]. intros c1.
  apply (keeps_bind self 0 0 1 0); [apply keeps_silent, silent_sql_bind|]. intros c2.
  apply (keeps_bind self 1 0 0 0); [apply keeps_insert_log|]. intros [].
  apply keeps_silent, silent_ret.
Qed.

Lemma silent_py_dict_get_default (v : pyval) (key : string) (dflt : pyval) :
  silent (py_dict_get_default v key dflt).
Proof. destruct v; silent_tac. Qed.

Lemma keeps_handle_food_logging (query : string) (user_id : option string)
    (user_prefs : pydict) :
  keeps self 1 1 (_handle_food_logging_request self query user_id user_prefs).
Proof.
  unfold _handle_food_logging_request.
  apply keeps_try_except; [|intros; apply silent_ret].
  apply keeps_if.
  { eapply keeps_weaken; [| |apply keeps_silent, silent_ret]; lia. }
  apply (keeps_bind self 0 1 1 0); [apply keeps_mistral_post|]. intros response.
  apply keeps_if; [|eapply keeps_weaken; [| |apply keeps_silent, silent_ret]; lia].
  apply (keeps_bind self 0 0 1 0); [apply keeps_silent, silent_response_json|]. intros b.
  apply (keeps_bind self 0 0 1 0); [apply keeps_silent, silent_chat_content|]. intros c.
  apply keeps_try_except_json; [|apply silent_ret].
  apply (keeps_bind self 0 0 1 0); [apply keeps_silent, silent_json_loads|]. intros d.
  apply (keeps_bind self 0 0 1 0); [apply keeps_silent, silent_py_dict_get_default|].
  intros fi.
  apply (keeps_bind self 0 0 1 0); [apply keeps_silent, silent_py_dict_get_default|].
  intros cal.
  apply (keeps_bind self 1 0 0 0); [apply keeps_log_food_intake|]. intros msg.
  apply keeps_silent, silent_ret.
Qed.

Lemma keeps_process_nutrition_query (query : string) (user_id : option string) :
  keeps self 1 5 (process_nutrition_query self query user_id).
Proof.
  unfold process_nutrition_query.
  apply keeps_try_except; [|intros; apply silent_ret].
  apply keeps_if.
  { eapply keeps_weaken; [| |apply keeps_silent, silent_ret]; lia. }
  apply (keeps_bind self 0 0 1 5); [apply keeps_silent, silent_load_user_prefs|].
  intros user_prefs. apply keeps_if.
  { eapply keeps_weaken; [| |apply keeps_handle_food_logging]; lia. }
  cbv zeta. apply keeps_if; [|apply keeps_if].
  - eapply keeps_weaken; [| |apply (keeps_bind self 0 4 0 1)];
      [lia|lia|apply keeps_search_restaurants|].
    intros d. apply keeps_format_restaurant_results.
  - eapply keeps_weaken; [| |apply keeps_workout_plan]; lia.
  - eapply keeps_weaken; [| |apply keeps_nutrition_advice]; lia.
Qed.

End MethodFootprints.

(* ===================================================================== *)
(** * Keyword tests are substring tests *)
(* ===================================================================== *)

Section KeywordFacts.

#[local] Arguments String.append !_ _ / : simpl nomatch.

Lemma lower_append (a b : string) : lower (a +:+ b) = lower a +:+ lower b.
Proof. induction a as [|c a IH]; simpl; [reflexivity|]. rewrite IH. reflexivity. Qed.

Lemma startswith_append (k s b : string) :
  startswith k s = true -> startswith k (s +:+ b) = true.
Proof.
  revert s. induction k as [|c k IH]; intros s; [destruct s; reflexivity|].
  destruct s as [|d s]; [discriminate|]. simpl.
  destruct (Ascii.eqb c d); [apply IH|discriminate].
Qed.

Lemma contains_append_r (k s b : string) :
  contains k s = true -> contains k (s +:+ b) = true.
Proof.
  induction s as [|d s IH].
  - simpl. rewrite orb_false_r. intros H. destruct k; [|discriminate].
    destruct b; reflexivity.
  - cbn [contains]. intros [H|H]%orb_prop.
    + change (String d s +:+ b) with (String d (s +:+ b)).
      cbn [contains]. change (String d (s +:+ b)) with (String d s +:+ b).
      rewrite (startswith_append _ _ _ H). reflexivity.
    + change (String d s +:+ b) with (String d (s +:+ b)).
      cbn [contains]. rewrite (IH H). apply orb_true_r.
Qed.

Lemma contains_append_l (k a s : string) :
  contains k s = true -> contains k (a +:+ s) = true.
Proof.
  intros H. induction a as [|c a IH]; [exact H|].
  change (String c a +:+ s) with (String c (a +:+ s)).
  cbn [contains]. rewrite IH. apply orb_true_r.
Qed.

Lemma any_in_embedded (keywords : list string) (a s b : string) :
  any_in keywords (lower s) = true ->
  any_in keywords (lower (a +:+ s +:+ b)) = true.
Proof.
  unfold any_in. rewrite !existsb_exists. intros (k & Hk & Hc).
  exists k. split; [exact Hk|].
  rewrite !lower_append. apply contains_append_l, contains_append_r, Hc.
Qed.

End KeywordFacts.

(** X1.  A query in which a forbidden word occurs, in any letter case and
    also inside a longer text, is rejected with the fixed message: the
    profile is not read, no handler runs and the world is unchanged. *)
Theorem forbidden_word_rejects (self : Config) (a query b : string)
    (user_id : option string) (w : world) :
  any_in forbidden_words (lower query) = true ->
  validate_input (a +:+ query +:+ b) = false /\
  process_nutrition_query self (a +:+ query +:+ b) user_id w =
    (Returned "Invalid input. Please provide a valid nutrition question.", w).
Proof.
  intros H.
  assert (Hv : validate_input (a +:+ query +:+ b) = false).
  { unfold validate_input. destruct (negb (truthy _)); [reflexivity|].
    rewrite (any_in_embedded _ a query b H). reflexivity. }
  split; [exact Hv|].
  unfold process_nutrition_query. rewrite Hv. reflexivity.
Qed.

Lemma forbidden_word_rejects_witness :
  process_nutrition_query exa_only ("Is " +:+ "SPAM" +:+ " healthy?") (Some "u1") search_only =
  (Returned "Invalid input. Please provide a valid nutrition question.", search_only).
Proof. apply (forbidden_word_rejects exa_only "Is " "SPAM" " healthy?"). reflexivity. Defined.

(** X2.  The keyword tests of the classifier look for substrings of the
    lower-cased query: a text that is taken for a food-logging request,
    or for a restaurant query, is still taken for one when it stands
    inside a longer text. *)
Theorem keyword_tests_survive_embedding (a query b : string) :
  (_is_food_logging_request query = true ->
   _is_food_logging_request (a +:+ query +:+ b) = true) /\
  (is_restaurant_query query = true ->
   is_restaurant_query (a +:+ query +:+ b) = true).
Proof.
  split.
  - unfold _is_food_logging_request. cbv zeta. apply any_in_embedded.
  - unfold is_restaurant_query, has_restaurant_keyword, has_food_location_pattern.
    intros [H|[H1 H2]%andb_prop]%orb_prop.
    + rewrite (any_in_embedded _ a query b H). reflexivity.
    + rewrite (any_in_embedded _ a query b H1), (any_in_embedded _ a query b H2).
      apply orb_true_r.
Qed.

Lemma keyword_tests_survive_embedding_witness :
  _is_food_logging_request ("Yesterday " +:+ "I ATE rice" +:+ " at home") = true.
Proof.
  apply (proj1 (keyword_tests_survive_embedding "Yesterday " "I ATE rice" " at home")).
  reflexivity.
Defined.

(* ===================================================================== *)
(** * Detected locations and the branches of the router *)
(* ===================================================================== *)

Section CapRunFacts.
Import CapRun.

Lemma run_ends_lower_bound (fuel : nat) (s : string) (e x : nat) :
  In x (run_ends fuel s e) -> (e <= x)%nat.
Proof.
  revert e. induction fuel as [|f IH]; intros e; cbn [run_ends].
  - intros [<-|[]]. lia.
  - intros [<-|H]; [lia|].
    destruct (count_while is_space (str_drop e s)) as [|n]; [destruct H|].
    destruct (cap_word _) as [k|]; [|destruct H].
    apply IH in H. lia.
Qed.

Lemma last_good_in (s : string) (ends : list nat) (e : nat) :
  last_good s ends = Some e -> In e ends.
Proof.
  induction ends as [|x r IH]; cbn [last_good]; [discriminate|].
  destruct (last_good s r) as [e'|].
  - intros [= <-]. right. apply IH. reflexivity.
  - destruct (at_word_end _); [|discriminate]. intros [= <-]. left. reflexivity.
Qed.

Lemma match_at_positive (s : string) (n : nat) : match_at s = Some n -> (2 <= n)%nat.
Proof.
  unfold match_at. destruct (cap_word s) as [k|] eqn:Ek; [|discriminate].
  intros H%last_good_in%run_ends_lower_bound.
  unfold cap_word in Ek. destruct s as [|c r]; [discriminate|].
  destruct (is_upper c); [|discriminate].
  destruct (count_while is_lower r); [discriminate|].
  injection Ek as <-. lia.
Qed.

Lemma findall_go_truthy (s : string) (prev : bool) (skip : nat) :
  forallb truthy (findall_go s prev skip) = true.
Proof.
  revert prev skip. induction s as [|c r IH]; intros prev skip; [reflexivity|].
  cbn [findall_go]. destruct skip; [|apply IH].
  destruct prev; [apply IH|].
  destruct (match_at (String c r)) as [n|] eqn:Em; [|apply IH].
  apply match_at_positive in Em. destruct n as [|n]; [lia|].
  cbn [forallb str_take truthy]. apply IH.
Qed.

Lemma longest_in (l : list string) (x : string) : longest l = Some x -> In x l.
Proof.
  revert x. induction l as [|y r IH]; intros x; cbn [longest]; [discriminate|].
  destruct (longest r) as [z|].
  - destruct (_ <? _)%nat; intros [= <-]; [right; apply IH; reflexivity|left; reflexivity].
  - intros [= <-]. left. reflexivity.
Qed.

Lemma strategy_capitalized_truthy (query l : string) :
  strategy_capitalized query = Some l -> truthy l = true.
Proof.
  unfold strategy_capitalized. intros H%longest_in.
  pose proof (findall_go_truthy query false 0) as Hall.
  rewrite forallb_forall in Hall. apply Hall, H.
Qed.

End CapRunFacts.

Section DetectFacts.

(** The three strategies in one expression. *)
Lemma detect_restaurant_query_cases (query : string) :
  is_restaurant_query query = true ->
  detect_restaurant_query query =
  match strategy_indicator location_indicators (lower query) with
  | Some l => Some l
  | None =>
      match strategy_places common_places (lower query) with
      | Some l => Some l
      | None => strategy_capitalized query
      end
  end.
Proof.
  unfold is_restaurant_query, detect_restaurant_query. intros ->. cbv zeta.
  destruct (strategy_indicator location_indicators (lower query)) as [l1|] eqn:E1.
  { pose proof (strategy_indicator_truthy _ _ _ E1) as Ht.
    repeat (cbn [truthy_opt negb]; rewrite ?Ht). reflexivity. }
  cbn [truthy_opt negb].
  destruct (strategy_places common_places (lower query)) as [l2|] eqn:E2.
  { pose proof (strategy_places_truthy common_places _ _ eq_refl E2) as Ht.
    repeat (cbn [truthy_opt negb]; rewrite ?Ht). reflexivity. }
  cbn [truthy_opt negb]. unfold strategy_capitalized.
  destruct (CapRun.findall query); reflexivity.
Qed.

Lemma detect_restaurant_query_gate (query l : string) :
  detect_restaurant_query query = Some l -> is_restaurant_query query = true.
Proof.
  unfold detect_restaurant_query, is_restaurant_query.
  destruct (_ || _); [reflexivity|discriminate].
Qed.

Lemma detect_restaurant_query_truthy (query l : string) :
  detect_restaurant_query query = Some l -> truthy l = true.
Proof.
  intros H. pose proof (detect_restaurant_query_gate _ _ H) as Hg.
  rewrite (detect_restaurant_query_cases _ Hg) in H.
  destruct (strategy_indicator location_indicators (lower query)) as [l1|] eqn:E1.
  { injection H as <-. eapply strategy_indicator_truthy, E1. }
  destruct (strategy_places common_places (lower query)) as [l2|] eqn:E2.
  { injection H as <-. eapply (strategy_places_truthy common_places), E2. reflexivity. }
  eapply strategy_capitalized_truthy, H.
Qed.

End DetectFacts.

(** X3.  [detect_restaurant_query] never returns the empty string: it
    returns [None], or a location that is not empty, and a location only
    for a query that has a restaurant keyword or names food and a known
    place.  So the test [if location] of the router is the test that a
    location was found. *)
Theorem detected_location_not_empty (query l : string) :
  detect_restaurant_query query = Some l ->
  l <> "" /\ truthy_opt (detect_restaurant_query query) = true /\
  is_restaurant_query query = true.
Proof.
  intros H. pose proof (detect_restaurant_query_truthy _ _ H) as Ht.
  split; [apply truthy_true, Ht|].
  split; [rewrite H; exact Ht|eapply detect_restaurant_query_gate, H].
Qed.

Lemma detected_location_not_empty_witness :
  "Bandra West" <> "" /\
  truthy_opt (detect_restaurant_query "sushi places near bandra west") = true /\
  is_restaurant_query "sushi places near bandra west" = true.
Proof.
  apply (detected_location_not_empty "sushi places near bandra west" "Bandra West").
  reflexivity.
Defined.

Section BranchFacts.

Lemma safe_search_restaurants (self : Config) (location cuisine : string)
    (user_id : option string) :
  safe (search_restaurants self location cuisine user_id).
Proof.
  apply (try_except_safe _
    (fun e => {[ "error" := FText ("Search failed: " +:+ exn_str e +:+
                   ". Please check your EXA_API_KEY configuration.") ]})).
Qed.

Lemma safe_format_restaurant_results (self : Config) (search_results : search_dict)
    (location : string) (user_prefs : pydict) :
  safe (format_restaurant_results self search_results location user_prefs).
Proof.
  apply (try_except_safe _
    (fun e => "Found some restaurants for " +:+ location +:+
              ", but had trouble formatting the results. Try searching on Zomato or Google Maps for local recommendations!")).
Qed.

Lemma safe_nutrition_advice (self : Config) (query : string) (user_prefs : pydict) :
  safe (_get_ai_nutrition_advice self query user_prefs).
Proof. apply (try_except_safe _ (fun e => "❌ Error: " +:+ exn_str e)). Qed.

(** The router after the validity test and the reading of the profile. *)
Lemma router_after_profile (user_id : option string)
    (w : world) (user_prefs : pydict) (rest : pydict -> py string) (s : string) (w' : world) :
  load_user_prefs user_id w = (Returned user_prefs, w) ->
  rest user_prefs w = (Returned s, w') ->
  try_except (user_prefs ← load_user_prefs user_id; rest user_prefs)
    (fun e => mret ("⚠️ Sorry, I encountered an error processing your query: " +:+
                    exn_str e)) w = (Returned s, w').
Proof.
  intros Hl Hr. apply try_except_returned.
  rewrite (bind_returned _ _ _ _ _ Hl). exact Hr.
Qed.

End BranchFacts.

(** X4.  A valid query without a food-logging keyword for which a
    location is detected is answered by the restaurant search for this
    location, formatted: the search is run for the user, with no cuisine,
    and its dictionary is handed to [format_restaurant_results] with the
    profile.  This holds also when the query has workout keywords:
    restaurant search comes first. *)
Theorem located_query_goes_to_search (self : Config) (query l : string)
    (user_id : option string) (w : world) :
  validate_input query = true ->
  _is_food_logging_request query = false ->
  detect_restaurant_query query = Some l ->
  exists user_prefs search_results w1,
    load_user_prefs user_id w = (Returned user_prefs, w) /\
    search_restaurants self l "" user_id w = (Returned search_results, w1) /\
    process_nutrition_query self query user_id w =
    format_restaurant_results self search_results l user_prefs w1.
Proof.
  intros Hv Hf Hd.
  destruct (load_user_prefs_returns user_id w) as [user_prefs Hl].
  destruct (safe_search_restaurants self l "" user_id w) as (d & w1 & Hs).
  destruct (safe_format_restaurant_results self d l user_prefs w1) as (s & w2 & Hfmt).
  exists user_prefs, d, w1. split; [exact Hl|]. split; [exact Hs|].
  unfold process_nutrition_query. rewrite Hv. cbn [negb]. rewrite Hfmt.
  apply (router_after_profile user_id w user_prefs); [exact Hl|].
  rewrite Hf. cbv zeta. rewrite Hd.
  cbn [truthy_opt default from_option id].
  rewrite (detect_restaurant_query_truthy _ _ Hd).
  rewrite (bind_returned _ _ _ _ _ Hs). exact Hfmt.
Qed.

Lemma located_query_goes_to_search_witness :
  exists user_prefs search_results w1,
    load_user_prefs None offline = (Returned user_prefs, offline) /\
    search_restaurants no_keys "Pune" "" None offline = (Returned search_results, w1) /\
    process_nutrition_query no_keys "gym cafe in pune" None offline =
    format_restaurant_results no_keys search_results "Pune" user_prefs w1.
Proof.
  apply (located_query_goes_to_search no_keys "gym cafe in pune" "Pune" None offline);
    reflexivity.
Defined.

(** X5.  A valid query without a food-logging keyword for which no
    location is found falls through to the last two branches, also when
    it is a restaurant query: with a workout keyword the answer is the
    workout plan, or the apology that quotes the exception it raised;
    otherwise it is the nutrition advice. *)
Theorem unlocated_query_falls_through (self : Config) (query : string)
    (user_id : option string) (w : world) :
  validate_input query = true ->
  _is_food_logging_request query = false ->
  detect_restaurant_query query = None ->
  exists user_prefs,
    load_user_prefs user_id w = (Returned user_prefs, w) /\
    process_nutrition_query self query user_id w =
    if any_in workout_keywords (lower query) then
      try_except (generate_workout_plan self user_prefs query)
        (fun e => mret ("⚠️ Sorry, I encountered an error processing your query: " +:+
                        exn_str e)) w
    else _get_ai_nutrition_advice self query user_prefs w.
Proof.
  intros Hv Hf Hd.
  destruct (load_user_prefs_returns user_id w) as [user_prefs Hl].
  exists user_prefs. split; [exact Hl|].
  unfold process_nutrition_query. rewrite Hv. cbn [negb].
  unfold try_except at 1. rewrite (bind_returned _ _ _ _ _ Hl).
  rewrite Hf. cbv zeta. rewrite Hd. cbn [truthy_opt].
  destruct (any_in workout_keywords (lower query)).
  - unfold try_except. reflexivity.
  - destruct (safe_nutrition_advice self query user_prefs w) as (s & w' & Hs).
    rewrite Hs. reflexivity.
Qed.

Lemma unlocated_query_falls_through_witness :
  process_nutrition_query no_keys "any good cafe?" None offline =
  _get_ai_nutrition_advice no_keys "any good cafe?" ∅ offline.
Proof.
  destruct (unlocated_query_falls_through no_keys "any good cafe?" None offline
              eq_refl eq_refl eq_refl) as (user_prefs & Hl & Hp).
  injection Hl as <-. exact Hp.
Defined.

(* ===================================================================== *)
(** * More on the composer *)
(* ===================================================================== *)





Section RestrictionFacts.

Lemma collect_no_terms (restrictions : list string) (w : world) :
  Forall (fun r => dietary_term (lower r) = None) restrictions ->
  collect_dietary_terms (PStr <$> restrictions) w = (Returned [], w).
Proof.
  induction 1 as [|r rs Hr _ IH]; [reflexivity|].
  rewrite fmap_cons. cbn [collect_dietary_terms].
  unfold mbind, py_bind. cbn [py_lower mret py_ret]. rewrite IH, Hr. reflexivity.
Qed.

End RestrictionFacts.

(** X8.  Restrictions that contain none of the seven dietary keywords
    are dropped from the rule-based queries: a profile whose restrictions
    are all of this kind gives the queries of the same profile without
    restrictions. *)
Theorem unknown_restrictions_are_dropped (location cuisine : string)
    (restrictions : list string) (user_prefs : pydict) (w : world) :
  Forall (fun r => dietary_term (lower r) = None) restrictions ->
  _generate_fallback_queries location
    (<["dietary_restrictions" := PList (PStr <$> restrictions)]> user_prefs) cuisine w =
  _generate_fallback_queries location
    (delete "dietary_restrictions" user_prefs) cuisine w.
Proof.
  intros Hr. unfold _generate_fallback_queries, py_get.
  rewrite lookup_insert_eq, lookup_delete_eq.
  rewrite lookup_insert_ne by discriminate. rewrite lookup_delete_ne by discriminate.
  cbn [default from_option id py_truthy].
  assert (Hd : (if match PStr <$> restrictions with [] => false | _ => true end
                then restrictions0 ← py_iter (PList (PStr <$> restrictions));
                     collect_dietary_terms restrictions0
                else mret []) w = (Returned [], w)).
  { destruct restrictions as [|r rs]; [reflexivity|].
    rewrite fmap_cons. cbn [py_iter]. unfold mbind, py_bind. cbn [mret py_ret].
    rewrite <- fmap_cons. apply collect_no_terms, Hr. }
  rewrite (bind_returned _ _ _ _ _ Hd). reflexivity.
Qed.

Lemma unknown_restrictions_are_dropped_witness :
  _generate_fallback_queries "Pune"
    (<["dietary_restrictions" := PList (PStr <$> ["Paleo"; "Dairy-Free"])]> sample_prefs)
    "" offline =
  _generate_fallback_queries "Pune" (delete "dietary_restrictions" sample_prefs) "" offline.
Proof.
  apply unknown_restrictions_are_dropped.
  repeat constructor.
Defined.

(* ===================================================================== *)
(** * More on the search aggregator *)
(* ===================================================================== *)

(** X9.  A query whose search fails, the server being out of reach or
    answering with a status other than 200, adds no result, is not
    counted as successful and does not end the loop: the loop goes on
    with the next query. *)
Theorem failed_search_is_skipped (self : Config) (query : string) (rest : list string)
    (all_results : list result) (successful_queries : nat) (w : world) :
  (forall r, server w (length (sent w)) (search_request self query) = Answered r ->
             status_code r <> 200) ->
  search_loop self (query :: rest) all_results successful_queries w =
  search_loop self rest all_results successful_queries
    (record_request (search_request self query) w).
Proof.
  intros Hfail.
  assert (Hs : search_step self query all_results successful_queries w =
               (Returned (false, all_results, successful_queries),
                record_request (search_request self query) w)).
  { unfold search_step, try_except, mbind, py_bind, requests_post. cbv zeta.
    destruct (server w (length (sent w)) (search_request self query)) as [msg|r] eqn:Es;
      [reflexivity|].
    destruct (status_code r =? 200) eqn:E; [|reflexivity].
    apply Z.eqb_eq in E. destruct (Hfail r eq_refl E). }
  rewrite (search_loop_cons _ _ _ _ _ _ _ _ _ _ Hs). reflexivity.
Qed.

Lemma failed_search_is_skipped_witness :
  search_loop exa_only ["q1"; "q2"] [] 0 offline =
  search_loop exa_only ["q2"] [] 0 (record_request (search_request exa_only "q1") offline).
Proof.
  apply failed_search_is_skipped. intros r H. discriminate H.
Defined.

Section PostPassFacts.

Lemma dedup_pass_length (l : list result) (seen : gset string) :
  (length (dedup_pass l seen) <= length l)%nat.
Proof. apply sublist_length, dedup_pass_sublist. Qed.

Lemma dedup_pass_fixed (l : list result) (seen : gset string) :
  dedup_pass (dedup_pass l seen) seen = dedup_pass l seen.
Proof.
  revert seen. induction l as [|r l IH]; intros seen; [reflexivity|].
  rewrite dedup_pass_cons.
  destruct (truthy (result_url r) && negb (bool_decide (result_url r ∈ seen))) eqn:E;
    [|apply IH].
  rewrite dedup_pass_cons, E.
  f_equal.
  (* the rest was filtered against the larger set: filtering it again
     against this set changes nothing *)
  apply IH.
Qed.

End PostPassFacts.

(** X10.  The dictionary built after the loop has at most 8 [results];
    their number is the smaller of 8 and [total_found], they are the
    first entries of the unique list, and [total_found] is at most the
    number of accumulated results. *)
Theorem returned_results_are_bounded (search_queries : list string)
    (all_results : list result) (successful_queries : nat) :
  exists results total_found,
    search_post_pass search_queries all_results successful_queries !! "results" =
      Some (FResults results) /\
    search_post_pass search_queries all_results successful_queries !! "total_found" =
      Some (FCount total_found) /\
    length results = min 8 total_found /\
    (length results <= 8)%nat /\
    (total_found <= length all_results)%nat /\
    results `prefix_of` unique_results_of all_results.
Proof.
  exists (firstn 8 (unique_results_of all_results)), (length (unique_results_of all_results)).
  split; [apply post_pass_results|]. split; [apply post_pass_total_found|].
  rewrite length_take. repeat split; try lia.
  - apply dedup_pass_length.
  - apply prefix_take.
Qed.

(** X11.  Removing duplicates is idempotent: the unique list has no
    duplicate left to remove, and the dictionary built from it is the
    one built from the accumulated results. *)
Theorem dedup_is_idempotent (search_queries : list string) (all_results : list result)
    (successful_queries : nat) :
  unique_results_of (unique_results_of all_results) = unique_results_of all_results /\
  search_post_pass search_queries (unique_results_of all_results) successful_queries =
    search_post_pass search_queries all_results successful_queries.
Proof.
  assert (H : unique_results_of (unique_results_of all_results) =
              unique_results_of all_results) by apply dedup_pass_fixed.
  split; [exact H|]. unfold search_post_pass. rewrite H. reflexivity.
Qed.

(* ===================================================================== *)
(** * What a query may change *)
(* ===================================================================== *)


(** X13.  Processing a query never changes the stored preferences, and
    never removes or alters a row of the food log: it appends at most
    one row.  It sends at most five requests, each to the endpoint of
    its payload with the credential of this endpoint: the search
    credential is never sent to the chat endpoint, nor the chat
    credential to the search endpoint. *)
Theorem query_footprint (self : Config) (query : string) (user_id : option string)
    (w : world) :
  evolves self 1 5 w (snd (process_nutrition_query self query user_id w)).
Proof. apply keeps_process_nutrition_query. Qed.

(** X14.  Without the search credential a restaurant query is answered
    at once with the text that tells how to enable the search, for the
    detected location, also when the chat credential is set: nothing is
    sent and nothing is written. *)
Theorem restaurant_query_without_search_key (self : Config) (query l : string)
    (user_id : option string) (w : world) :
  exa_api_key self = "" ->
  validate_input query = true ->
  _is_food_logging_request query = false ->
  detect_restaurant_query query = Some l ->
  process_nutrition_query self query user_id w =
  (Returned
     (lines
        ["🔑 **Restaurant Search Not Available**"; "";
         exa_key_message; "";
         "**To enable real-time restaurant search:**";
         "1. Get an API key from https://exa.ai";
         "2. Add `EXA_API_KEY=your_key_here` to your .env file";
         "3. Restart the application"; "";
         "**Meanwhile, here are dining tips for " +:+ l +:+ ":**";
         "• Check Zomato, Google Maps, or TripAdvisor for reviews";
         "• Look for restaurants with healthy menu options";
         "• Consider the cooking methods - grilled, baked, or steamed are better choices"]),
   w).
Proof.
  intros Hk Hv Hf Hd.
  destruct (load_user_prefs_returns user_id w) as [user_prefs Hl].
  unfold process_nutrition_query. rewrite Hv. cbn [negb].
  apply (router_after_profile user_id w user_prefs); [exact Hl|].
  rewrite Hf. cbv zeta. rewrite Hd.
  cbn [truthy_opt default from_option id].
  rewrite (detect_restaurant_query_truthy _ _ Hd).
  rewrite (bind_returned _ _ _ _ _
             (search_restaurants_without_key self l "" user_id w Hk)).
  reflexivity.
Qed.

Lemma restaurant_query_without_search_key_witness :
  snd (process_nutrition_query chat_only "good cafe in Pune" (Some "u1") search_only) =
  search_only.
Proof.
  rewrite (restaurant_query_without_search_key chat_only "good cafe in Pune" "Pune"
             (Some "u1") search_only eq_refl eq_refl eq_refl eq_refl).
  reflexivity.
Defined.

(* ===================================================================== *)
(** * More on the preference store *)
(* ===================================================================== *)

Section StoreFrameFacts.

Lemma silent_bind_columns (preferences : pydict) (columns : list string) :
  silent (bind_columns preferences columns).
Proof.
  induction columns as [|k r IH]; cbn [bind_columns]; [apply silent_ret|].
  apply silent_bind; [apply silent_sql_bind|]. intros c.
  apply silent_bind; [apply IH|]. intros cs. apply silent_ret.
Qed.

(** What is decoded does not depend on the world. *)
Lemma parse_json_fields_outcome (fields : list (string * string)) (preferences : pydict)
    (w1 w2 : world) :
  fst (parse_json_fields fields preferences w1) =
  fst (parse_json_fields fields preferences w2).
Proof.
  revert preferences. induction fields as [|[k dflt] r IH]; intros preferences;
    [reflexivity|].
  cbn [parse_json_fields]. unfold try_except_json, mbind, py_bind, json_loads.
  destruct (default (PStr dflt) (preferences !! k)) as [| | |s| |]; try reflexivity.
  destruct (Json.loads s) as [v|]; [|reflexivity].
  cbn [mret py_ret].
  specialize (IH (<[k := v]> preferences)).
  destruct (parse_json_fields r (<[k:=v]> preferences) w1) as [[a1|[m1|m1]] x1],
           (parse_json_fields r (<[k:=v]> preferences) w2) as [[a2|[m2|m2]] x2];
    cbn [fst mret py_ret] in *; try discriminate; try reflexivity; congruence.
Qed.

(** What is read for a user depends on the row of this user only. *)
Lemma get_user_preferences_row (user_id : string) (w1 w2 : world) :
  user_preferences w1 !! user_id = user_preferences w2 !! user_id ->
  fst (get_user_preferences user_id w1) = fst (get_user_preferences user_id w2).
Proof.
  intros Hrow. unfold get_user_preferences, try_except, mbind, py_bind, select_preferences.
  rewrite Hrow. destruct (user_preferences w2 !! user_id) as [row|]; [|reflexivity].
  pose proof (parse_json_fields_outcome json_columns (sql_read <$> row) w1 w2) as H.
  destruct (parse_json_fields json_columns (sql_read <$> row) w1) as [[a1|e1] x1],
           (parse_json_fields json_columns (sql_read <$> row) w2) as [[a2|e2] x2];
    cbn [fst mret py_ret] in *; try discriminate; try reflexivity; congruence.
Qed.

(** Saving writes at most the row of the user. *)
Lemma save_user_preferences_other (u1 u2 : string) (preferences : pydict) (w : world) :
  u1 <> u2 ->
  user_preferences (snd (save_user_preferences u1 preferences w)) !! u2 =
  user_preferences w !! u2.
Proof.
  intros Hne. unfold save_user_preferences, try_except, mbind at 1, py_bind.
  pose proof (silent_bind_columns preferences scalar_columns w) as Hs.
  destruct (bind_columns preferences scalar_columns w) as [[cells|e] w1];
    cbn [snd] in Hs; subst w1; [|reflexivity].
  cbn. apply lookup_insert_ne, Hne.
Qed.

Lemma bind_columns_raises (preferences : pydict) (columns : list string) (k : string)
    (w : world) :
  k ∈ columns ->
  (exists l, py_get preferences k = PList l) \/ (exists d, py_get preferences k = PDict d) ->
  bind_columns preferences columns w =
  (Raised (Exception "Error binding parameter: type is not supported"), w).
Proof.
  intros Hin Hk. induction columns as [|c r IH]; [inversion Hin|].
  cbn [bind_columns]. unfold mbind at 1, py_bind.
  destruct (decide (c = k)) as [->|Hne].
  - destruct Hk as [[l ->]|[d ->]]; reflexivity.
  - apply elem_of_cons in Hin as [->|Hin]; [contradiction|].
    specialize (IH Hin).
    destruct (py_get preferences c); cbn [sql_bind mret py_ret raise];
      try reflexivity;
      unfold mbind, py_bind; rewrite IH; reflexivity.
Qed.

End StoreFrameFacts.

(** X15.  Saving the preferences of one user leaves what is read for any
    other user as it was, whatever is saved and whether or not the
    saving succeeds. *)
Theorem save_leaves_other_users (u1 u2 : string) (preferences : pydict) (w : world) :
  u1 <> u2 ->
  fst (get_user_preferences u2 (snd (save_user_preferences u1 preferences w))) =
  fst (get_user_preferences u2 w).
Proof.
  intros Hne. apply get_user_preferences_row, save_user_preferences_other, Hne.
Qed.

Lemma save_leaves_other_users_witness :
  fst (get_user_preferences "u2" (snd (save_user_preferences "u1" sample_prefs offline))) =
  Returned ∅.
Proof.
  rewrite (save_leaves_other_users "u1" "u2" sample_prefs offline); [reflexivity|].
  discriminate.
Defined.





(* ===================================================================== *)
(** * The food log *)
(* ===================================================================== *)

Section FoodLogFacts.

#[local] Arguments String.append !_ _ / : simpl nomatch.

Lemma sql_bind_scalar (v : pyval) (w : world) :
  is_scalar v = true -> sql_bind v w = (Returned (sql_cell v), w).
Proof. destruct v as [|[]| | | |]; try discriminate; reflexivity. Qed.

Lemma startswith_self_append (p x : string) : startswith p (p +:+ x) = true.
Proof.
  induction p as [|c p IH]; [destruct x; reflexivity|].
  simpl. rewrite Ascii.eqb_refl. exact IH.
Qed.

Lemma log_food_intake_scalar (user_id : string) (food_item calories : pyval) (w : world) :
  is_scalar food_item = true -> is_scalar calories = true ->
  log_food_intake user_id food_item calories w =
  (Returned ("Logged: " +:+ py_str food_item +:+ " (" +:+ py_str calories +:+ " calories)"),
   logged user_id food_item calories w).
Proof.
  intros Hf Hc. unfold log_food_intake, try_except, mbind, py_bind.
  rewrite (sql_bind_scalar _ _ Hf), (sql_bind_scalar _ _ Hc). reflexivity.
Qed.

End FoodLogFacts.







(* ===================================================================== *)
(** * The daily summary *)
(* ===================================================================== *)

Section SummaryFacts.

Lemma total_calories_app (entries : list log_row) (row : log_row) (c : Z) :
  log_calories row = SqlInteger c ->
  total_calories (entries ++ [row]) = (fun t => t + c) <$> total_calories entries.
Proof.
  intros Hc. induction entries as [|e r IH]; cbn [app total_calories].
  - rewrite Hc. cbn. f_equal. lia.
  - rewrite IH. destruct (log_calories e); try reflexivity.
    destruct (total_calories r); cbn; [f_equal; lia|reflexivity].
Qed.

Lemma logged_today_self (user_id : string) (food_item : pyval) (c : Z) (w : world) :
  todays_entries user_id (logged user_id food_item (PInt c) w) =
  todays_entries user_id w ++
  [LogRow (Z.of_nat (length (nutrition_logs w)) + 1) (SqlText user_id)
          (sql_cell food_item) (SqlInteger c) (now w)].
Proof.
  unfold todays_entries, logged, insert_log. cbn [snd nutrition_logs].
  rewrite List.filter_app. cbn [List.filter].
  unfold logged_today at 2. cbn [log_user_id log_timestamp now].
  rewrite !String.eqb_refl. reflexivity.
Qed.

Lemma logged_today_other (user_id other : string) (food_item calories : pyval) (w : world) :
  user_id <> other ->
  todays_entries other (logged user_id food_item calories w) = todays_entries other w.
Proof.
  intros Hne. unfold todays_entries, logged, insert_log. cbn [snd nutrition_logs].
  rewrite List.filter_app. cbn [List.filter].
  unfold logged_today at 2. cbn [log_user_id].
  apply String.eqb_neq in Hne. rewrite Hne. cbn [andb]. apply app_nil_r.
Qed.

End SummaryFacts.


